(** * PriceSheetGenerator: the upload handler of [app.js]

    A shallow embedding of the single source file of the repository, the
    Express handler [app.post('/upload', ...)] together with its helper
    [findProductImage], and the properties of the price sheet it builds.

    The handler is sequential code with effects (file system, console, HTTP
    response) and exceptions; it is embedded in a small state-and-exception
    monad.  The libraries it calls ([xlsx], [sharp], [pdf-lib], [fs]) are not
    part of the repository: their results are kept as terms (an image buffer
    is the term that describes what it shows: the picture that a file holds,
    or the calls that built the buffer from others) or read from the
    modelled file system.  [sharp] throws on an image file that it cannot
    decode and on a canvas without positive size; whether it renders a
    composition (an SVG overlay may be ill-formed, an overlay may be too
    large) is its own decision, a variable of the development.  The other
    exceptions are the ones of [xlsx.readFile], of [fs.unlinkSync] and of
    calling [.trim] on a value that is not a string. *)

From Stdlib Require Import ZArith QArith Qround Ascii DecimalString.
From stdpp Require Import base option list strings gmap.

Local Open Scope Z_scope.
Set Warnings "-register-all".

(** ** JavaScript strings

    A JavaScript string is a sequence of UTF-16 code units.  The embedding
    covers the code units below 256 (Basic Latin and Latin-1 Supplement), one
    [ascii] per code unit; on them [trim], [toLowerCase] and the class [\s]
    are as defined below.  There [toLowerCase] maps one code unit to one
    code unit, which it does not on all of UTF-16: nothing below is about
    the length of a lowercased string. *)

Module JsString.

Definition code (c : ascii) : N := N_of_ascii c.

(** ECMAScript [WhiteSpace] and [LineTerminator] code points below 256:
    TAB, LF, VT, FF, CR, SP and NBSP.  This is the class [\s] of a regular
    expression and the set removed by [String.prototype.trim]. *)
Definition isWhiteSpace (c : ascii) : bool :=
  let n := code c in
  ((9 <=? n) && (n <=? 13) || (n =? 32) || (n =? 160))%N.

(** [String.prototype.toLowerCase] on one code unit: A-Z, and the Latin-1
    capitals U+00C0..U+00DE except the multiplication sign U+00D7. *)
Definition lowerChar (c : ascii) : ascii :=
  let n := code c in
  if ((65 <=? n) && (n <=? 90))%N then ascii_of_N (n + 32)
  else if ((192 <=? n) && (n <=? 222) && negb (n =? 215))%N
       then ascii_of_N (n + 32)
       else c.

Fixpoint toLowerCase (s : string) : string :=
  match s with
  | EmptyString => EmptyString
  | String c s' => String (lowerChar c) (toLowerCase s')
  end.

Fixpoint trimStart (s : string) : string :=
  match s with
  | EmptyString => EmptyString
  | String c s' => if isWhiteSpace c then trimStart s' else s
  end.

Fixpoint trimEnd (s : string) : string :=
  match s with
  | EmptyString => EmptyString
  | String c s' =>
      match trimEnd s' with
      | EmptyString => if isWhiteSpace c then EmptyString
                       else String c EmptyString
      | t => String c t
      end
  end.

(** [s.trim()] *)
Definition trim (s : string) : string := trimEnd (trimStart s).

(** [s.replace(/\s+/g, r)]: every maximal run of white space becomes one
    copy of [r].  [inRun] tells that the previous code unit belonged to the
    run being replaced. *)
Fixpoint replaceRuns (r : string) (inRun : bool) (s : string) : string :=
  match s with
  | EmptyString => EmptyString
  | String c s' =>
      if isWhiteSpace c
      then (if inRun then replaceRuns r true s'
            else r +:+ replaceRuns r true s')
      else String c (replaceRuns r false s')
  end.

Definition replaceWhiteSpace (r s : string) : string :=
  replaceRuns r false s.

(** The code units of a string, and the strings free of white space. *)
Fixpoint chars (s : string) : list ascii :=
  match s with
  | EmptyString => []
  | String c s' => c :: chars s'
  end.

Definition allWhiteSpace (s : string) : Prop :=
  Forall (λ c, isWhiteSpace c = true) (chars s).

Definition noWhiteSpace (s : string) : Prop :=
  Forall (λ c, isWhiteSpace c = false) (chars s).

(** A string that neither starts nor ends with white space. *)
Definition trimmed (s : string) : Prop :=
  (∀ c, head (chars s) = Some c → isWhiteSpace c = false) ∧
  (∀ c, last (chars s) = Some c → isWhiteSpace c = false).

End JsString.

(** ** JavaScript values

    The cell values that [xlsx.utils.sheet_to_json] puts into a row: strings,
    numbers, booleans and [null]; a column that is empty in a row is absent
    from the row object, and reading it gives [undefined]. *)

Module Js.

(** The handler observes a number in two ways only: through its truth value
    ([+0], [-0] and [NaN] are falsy) and through [String(n)].  A number is
    represented by these two observations. *)
Record Number := { toBoolean : bool; toString : string }.

Inductive Value :=
| Undefined
| Null
| Bool (b : bool)
| Num (n : Number)
| Str (s : string).

Inductive Exn :=
| TypeError     (* calling [.trim] on a value that has no such method *)
| XlsxError     (* thrown by [xlsx.readFile] *)
| FsError       (* thrown by [fs.unlinkSync] or [fs.readFileSync] *)
| SharpError.   (* thrown by a [sharp] pipeline *)

Inductive Result (A : Type) :=
| Ok (a : A)
| Throw (e : Exn).
Global Arguments Ok {A} a.
Global Arguments Throw {A} e.

(** [ToBoolean] *)
Definition truthy (v : Value) : bool :=
  match v with
  | Undefined | Null => false
  | Bool b => b
  | Num n => toBoolean n
  | Str s => negb (bool_decide (s = EmptyString))
  end.

(** [a || b] *)
Definition or (a b : Value) : Value := if truthy a then a else b.

(** [String(v)] *)
Definition String_ (v : Value) : string :=
  match v with
  | Undefined => "undefined"
  | Null => "null"
  | Bool true => "true"
  | Bool false => "false"
  | Num n => toString n
  | Str s => s
  end.

(** [v.trim()]: only strings have the method; on a number or a boolean the
    property is [undefined] and the call throws, on [undefined] and [null]
    the property access itself throws. *)
Definition trim (v : Value) : Result string :=
  match v with
  | Str s => Ok (JsString.trim s)
  | _ => Throw TypeError
  end.

(** Decimal rendering of an integer constant inside a template literal. *)
Definition showZ (z : Z) : string :=
  NilEmpty.string_of_int (Z.to_int z).

End Js.

Global Instance result_ret : MRet Js.Result := @Js.Ok.
Global Instance result_bind : MBind Js.Result := λ A B f m,
  match m with
  | Js.Ok a => f a
  | Js.Throw e => Js.Throw e
  end.

(** ** Rows and product fields *)

(** A row object of [sheet_to_json]: its own properties in [for ... in]
    order, the header of the column as key. *)
Abbreviation Row := (list (string * Js.Value)).

(** [item[key]] on a cleaned row. *)
Definition get (item : gmap string Js.Value) (key : string) : Js.Value :=
  default Js.Undefined (item !! key).

(** Lines 54-61: the body of [data.map(row => ...)].  The keys are visited in
    order and a later key overwrites an earlier one with the same trimmed
    name; the values are copied as they are.  (A header that trims to
    [__proto__] would reach the prototype setter instead of a property;
    none of the six keys read below is affected.) *)
Definition cleanRow (row : Row) : gmap string Js.Value :=
  foldl (λ cleanedRow kv, <[JsString.trim kv.1 := kv.2]> cleanedRow) ∅ row.

Definition cleanedData (data : list Row) : list (gmap string Js.Value) :=
  cleanRow <$> data.

(** Lines 87-92: the six constants read from one row. *)
Record Fields := {
  text : string;
  price : string;
  oldPrice : string;
  discountInfo : string;
  description : string;
  category : string;
}.

Definition productName (item : gmap string Js.Value) : Js.Value :=
  Js.or (get item "Product") (Js.Str "No Product").

Definition priceValue (item : gmap string Js.Value) : Js.Value :=
  Js.or (get item "Price") (Js.Str "No Price").

Definition fields (item : gmap string Js.Value) : Js.Result Fields :=
  text ← Js.trim (productName item);
  let price :=
    JsString.replaceWhiteSpace EmptyString
      (JsString.trim (Js.String_ (priceValue item))) in
  let oldPrice :=
    JsString.replaceWhiteSpace EmptyString
      (JsString.trim (Js.String_ (Js.or (get item "Old Price") (Js.Str EmptyString)))) in
  discountInfo ← Js.trim (Js.or (get item "Discount Info") (Js.Str EmptyString));
  description ← Js.trim (Js.or (get item "Description") (Js.Str EmptyString));
  category ← Js.trim (Js.or (get item "Category") (Js.Str EmptyString));
  mret {| text := text; price := price; oldPrice := oldPrice;
          discountInfo := discountInfo; description := description;
          category := category |}.

(** Line 95 *)
Definition productImageSlug (text : string) : string :=
  JsString.replaceWhiteSpace "-" (JsString.toLowerCase text).

(** ** Paths, images, workbooks and files *)

(** [path.join(a, b, c)] is kept as the list of its arguments and is not
    normalised: a segment that holds [..] or a separator makes two lists
    name one file.  The file system below is keyed by these lists, so a
    state stands for a file system when lists that name one file hold the
    same entry; the handler probes and reads before it writes, and nothing
    below compares two file systems directory by directory. *)
Abbreviation Path := (list string).

Definition __dirname : string := "__dirname".

Module Sharp.

Record RGBA := { r : Z; g : Z; b : Z; alpha : Z }.

(** The [create] option of the [sharp] constructor. *)
Record Create := {
  width : Z;
  height : Z;
  channels : Z;
  background : RGBA;
}.

(** [sharp.fit] *)
Inductive Fit := contain | cover | fill | inside | outside.

(** One element of the array given to [.composite]. *)
Record Overlay (I : Type) := { input : I; left : Z; top : Z }.
Global Arguments input {I} _.
Global Arguments left {I} _.
Global Arguments top {I} _.

(** An image buffer is the description of what it shows: the picture that
    an image file holds, or the calls that produce the buffer from others. *)
Inductive Image :=
| pixels (id : string)
    (* the picture of an image file, named by its content *)
| resize (src : Image) (width height : Z) (fit : Fit)
    (* [sharp(src).resize({ width, height, fit }).toBuffer()] *)
| buffer (s : string)
    (* [Buffer.from(s)] *)
| composite (create : Create) (images : list (Overlay Image)).
    (* [sharp({ create }).composite(images).png()] *)

Definition white : RGBA := {| r := 255; g := 255; b := 255; alpha := 1 |}.

End Sharp.

Module Xlsx.

(** A sheet is represented by the rows that [sheet_to_json] reads from it,
    in sheet order. *)
Definition Sheet : Type := list Row.

Record WorkBook := {
  SheetNames : list string;
  Sheets : gmap string Sheet;
}.

(** [xlsx.utils.sheet_to_json(sheet)]; the library returns an empty array
    when the sheet is [undefined]. *)
Definition sheet_to_json (sheet : option Sheet) : list Row :=
  default [] sheet.

End Xlsx.

Module Pdf.

(** The options of [page.drawImage], with the embedded image. *)
Record DrawImage (B : Type) := {
  image : B; x : Z; y : Z; width : Z; height : Z;
}.
Global Arguments Build_DrawImage {B}.
Global Arguments image {B} _.

(** [pdfDoc.addPage([w, h])] and what was drawn on the page. *)
Record Page (B : Type) := {
  size : Z * Z;
  drawn : list (DrawImage B);
}.
Global Arguments Build_Page {B}.
Global Arguments size {B} _.
Global Arguments drawn {B} _.

End Pdf.

(** What a file holds. *)
Inductive FileData :=
| Spreadsheet (workbook : Xlsx.WorkBook)
    (* a file that [xlsx.readFile] parses into [workbook] *)
| Png (img : Sharp.Image)
    (* a PNG file that shows [img] *)
| Picture (img : Sharp.Image)
    (* an image file of another format that [sharp] decodes to [img] *)
| PdfBytes (pages : list (Pdf.Page FileData))
| Other.
    (* anything else; [xlsx.readFile] and [sharp] throw on it *)

(** An entry of the file system; [removable] tells whether [fs.unlinkSync]
    succeeds on it. *)
Record File := { data : FileData; removable : bool }.

(** ** The handler's state and effects *)

(** The arguments of one [console.log] call. *)
Inductive LogLine :=
| ParsedData (data : list Row)
| CleanedData (data : list (gmap string Js.Value))
| LookingForImage (slug : string)
| ImagePath (p : option Path)
| ImageFound (text : string)
| NoImageFound (text : string).

(** The calls that reach outside the process, in the order they happen. *)
Inductive Event :=
| EvReadFile (p : Path)        (* [xlsx.readFile] *)
| EvLog (line : LogLine)       (* [console.log] *)
| EvUnlink (p : Path)          (* [fs.unlinkSync] *)
| EvExists (p : Path)          (* [fs.existsSync] *)
| EvSharpRead (p : Path)       (* [sharp(p)]: decode an image file *)
| EvToFile (p : Path)          (* [sharp(...).toFile] *)
| EvReadFileSync (p : Path)    (* [fs.readFileSync] *)
| EvWriteFileSync (p : Path).  (* [fs.writeFileSync] *)

Inductive Body :=
| Text (s : string)
| Json (props : list (string * string)).

Record Response := { status : Z; body : Body }.

Record State := {
  fs : gmap Path File;
  trace : list Event;
  response : option Response;
}.

(** A computation of the handler: it returns or throws, and leaves a state
    behind in both cases. *)
Definition M (A : Type) : Type := State → Js.Result A * State.

Global Instance M_ret : MRet M := λ A a s, (Js.Ok a, s).
Global Instance M_bind : MBind M := λ A B f m s,
  match m s with
  | (Js.Ok a, s') => f a s'
  | (Js.Throw e, s') => (Js.Throw e, s')
  end.

Definition lift {A} (r : Js.Result A) : M A := λ s, (r, s).

Definition throw {A} (e : Js.Exn) : M A := λ s, (Js.Throw e, s).

Definition emit (e : Event) : M unit := λ s,
  (Js.Ok (), {| fs := fs s; trace := trace s ++ [e]; response := response s |}).

Definition setFs (f : gmap Path File → gmap Path File) : M unit := λ s,
  (Js.Ok (), {| fs := f (fs s); trace := trace s; response := response s |}).

Definition getFs : M (gmap Path File) := λ s, (Js.Ok (fs s), s).

Definition respond (r : Response) : M unit := λ s,
  (Js.Ok (), {| fs := fs s; trace := trace s; response := Some r |}).

Definition console_log (line : LogLine) : M unit := emit (EvLog line).

(** [xlsx.readFile(p)]: throws unless the file is there and is readable as
    a workbook. *)
Definition xlsx_readFile (p : Path) : M Xlsx.WorkBook :=
  emit (EvReadFile p);;
  files ← getFs;
  match data <$> files !! p with
  | Some (Spreadsheet workbook) => mret workbook
  | _ => throw Js.XlsxError
  end.

(** [fs.unlinkSync(p)] *)
Definition fs_unlinkSync (p : Path) : M unit :=
  emit (EvUnlink p);;
  files ← getFs;
  match removable <$> files !! p with
  | Some true => setFs (delete p)
  | _ => throw Js.FsError
  end.

(** [fs.existsSync(p)] *)
Definition fs_existsSync (p : Path) : M bool :=
  emit (EvExists p);;
  files ← getFs;
  mret (bool_decide (is_Some (files !! p))).

(** What [sharp] decodes from the file at [p]: the picture of an image
    file; it throws when the file is missing or is no image. *)
Definition decode (files : gmap Path File) (p : Path) : Js.Result Sharp.Image :=
  match data <$> files !! p with
  | Some (Png img) | Some (Picture img) => Js.Ok img
  | _ => Js.Throw Js.SharpError
  end.

(** [await sharp(p).toBuffer()] on a path *)
Definition sharp_read (p : Path) : M Sharp.Image :=
  emit (EvSharpRead p);;
  files ← getFs;
  lift (decode files p).

(** The constructor [sharp({ create })] throws unless the width and the
    height of the canvas are positive. *)
Definition validCreate (create : Sharp.Create) : bool :=
  (0 <? Sharp.width create) && (0 <? Sharp.height create).

(** [fs.readFileSync(p)] *)
Definition fs_readFileSync (p : Path) : M FileData :=
  emit (EvReadFileSync p);;
  files ← getFs;
  match files !! p with
  | Some f => mret (data f)
  | None => throw Js.FsError
  end.

(** [fs.writeFileSync(p, bytes)] *)
Definition fs_writeFileSync (p : Path) (bytes : FileData) : M unit :=
  emit (EvWriteFileSync p);;
  setFs (insert p {| data := bytes; removable := true |}).

(** ** [findProductImage] (lines 21-30) *)

Definition extensions : list string := [".png"; ".jpg"; ".jpeg"; ".webp"].

Definition imagePath (productImageSlug ext : string) : Path :=
  [__dirname; "images"; productImageSlug +:+ ext].

(** The [for (const ext of extensions)] loop over the remaining extensions. *)
Fixpoint findProductImageFrom (exts : list string) (productImageSlug : string)
  : M (option Path) :=
  match exts with
  | [] => mret None
  | ext :: rest =>
      found ← fs_existsSync (imagePath productImageSlug ext);
      if found : bool then mret (Some (imagePath productImageSlug ext))
      else findProductImageFrom rest productImageSlug
  end.

Definition findProductImage (productImageSlug : string) : M (option Path) :=
  findProductImageFrom extensions productImageSlug.

(** ** The card of one row (lines 84-172) *)

Definition fontSize : Z := 40.
Definition productX : Z := 20.
Definition productY : Z := 50.
Definition descriptionY : Z := 90.
Definition priceX : Z := 600.
Definition priceY : Z := 100.
Definition oldPriceY : Z := 140.

Definition dq : string := String (ascii_of_nat 34) EmptyString.
Definition lf : string := String (ascii_of_nat 10) EmptyString.
Definition indent : string := "            ".

Definition attr (name value : string) : string :=
  name +:+ "=" +:+ dq +:+ value +:+ dq.

Fixpoint attrs (l : list (string * string)) : string :=
  match l with
  | [] => EmptyString
  | [(n, v)] => attr n v
  | (n, v) :: rest => attr n v +:+ " " +:+ attrs rest
  end.

Definition textElement (l : list (string * string)) (content : string) : string :=
  indent +:+ "<text " +:+ attrs l +:+ ">" +:+ content +:+ "</text>".

Definition arial : string * string := ("font-family", "Arial, sans-serif").

(** The template literal of lines 136-151. *)
Definition svg (f : Fields) : string :=
  "<svg " +:+ attrs [("width", "800"); ("height", "200")] +:+ ">" +:+ lf +:+
  indent +:+ "<!-- Product Name -->" +:+ lf +:+
  textElement [("x", "20"); ("y", Js.showZ productY); arial;
               ("font-size", "40"); ("fill", "black"); ("font-weight", "bold")]
              (text f) +:+ lf +:+
  indent +:+ lf +:+
  indent +:+ "<!-- Description -->" +:+ lf +:+
  textElement [("x", "20"); ("y", Js.showZ descriptionY); arial;
               ("font-size", "20"); ("fill", "black")]
              (description f) +:+ lf +:+
  lf +:+
  indent +:+ "<!-- Discount Info (positioned right) -->" +:+ lf +:+
  textElement [("x", "600"); ("y", "50"); arial;
               ("font-size", "30"); ("fill", "red")]
              (discountInfo f) +:+ lf +:+
  lf +:+
  indent +:+ "<!-- Current Price (right next to discount info) -->" +:+ lf +:+
  textElement [("x", Js.showZ priceX); ("y", Js.showZ priceY); arial;
               ("font-size", "40"); ("fill", "black"); ("font-weight", "bold")]
              (price f) +:+ lf +:+
  lf +:+
  indent +:+ "<!-- Old Price -->" +:+ lf +:+
  textElement [("x", Js.showZ priceX); ("y", Js.showZ oldPriceY); arial;
               ("font-size", "20"); ("fill", "gray");
               ("text-decoration", "line-through")]
              (oldPrice f) +:+ lf +:+
  "        </svg>".

(** The blank canvas of a card (lines 159-166). *)
Definition cardCanvas : Sharp.Create :=
  {| Sharp.width := 800; Sharp.height := 200; Sharp.channels := 4;
     Sharp.background := Sharp.white |}.

Definition overlay (img : Sharp.Image) (left top : Z) : Sharp.Overlay Sharp.Image :=
  {| Sharp.input := img; Sharp.left := left; Sharp.top := top |}.

(** ** The decisions of [sharp] *)

Section Library.

(** [renders create images] tells whether the pipeline
    [sharp({ create }).composite(images).png()] produces its output for a
    valid canvas.  [sharp] rejects it when an overlay cannot be parsed (the
    SVG text is pasted from the cells without escaping), when an overlay is
    larger than the canvas, or when a limit of the library is exceeded. *)
Variable renders :
  Sharp.Create → list (Sharp.Overlay Sharp.Image) → bool.

(** [await sharp({ create }).composite(images).png().toBuffer()] *)
Definition sharp_composite (create : Sharp.Create)
    (images : list (Sharp.Overlay Sharp.Image)) : M Sharp.Image :=
  if validCreate create && renders create images
  then mret (Sharp.composite create images)
  else throw Js.SharpError.

(** [await sharp({ create }).composite(images).png().toFile(p)]: the
    constructor throws before [toFile] is called; a pipeline that fails
    writes nothing. *)
Definition sharp_toFile (create : Sharp.Create)
    (images : list (Sharp.Overlay Sharp.Image)) (p : Path) : M unit :=
  if validCreate create
  then (emit (EvToFile p);;
        if renders create images
        then setFs (insert p {| data := Png (Sharp.composite create images);
                                removable := true |})
        else throw Js.SharpError)
  else throw Js.SharpError.

(** The body of the [for] loop: one row to one image buffer. *)
Definition renderRow (backgroundImage : option Sharp.Image)
    (item : gmap string Js.Value) : M Sharp.Image :=
  f ← lift (fields item);
  let productImageSlug := productImageSlug (text f) in
  productImagePath ← findProductImage productImageSlug;
  console_log (LookingForImage productImageSlug);;
  console_log (ImagePath productImagePath);;
  console_log (match productImagePath with
               | Some _ => ImageFound (text f)
               | None => NoImageFound (text f)
               end);;
  let compositeImages :=
    match backgroundImage with
    | Some bg => [overlay bg 0 0]
    | None => []
    end in
  productImage ← match productImagePath with
                 | Some p => img ← sharp_read p; mret (Some img)
                 | None => mret None
                 end;
  let compositeImages :=
    match productImage with
    | Some img =>
        compositeImages ++
          [overlay (Sharp.resize img 150 150 Sharp.inside) 400 20]
    | None => compositeImages
    end in
  let svgBuffer := Sharp.buffer (svg f) in
  let compositeImages := compositeImages ++ [overlay svgBuffer 0 0] in
  sharp_composite cardCanvas compositeImages.

(** The [for] loop of lines 83-173, pushing onto [imageBuffers]. *)
Fixpoint renderRows (backgroundImage : option Sharp.Image)
    (items : list (gmap string Js.Value)) (imageBuffers : list Sharp.Image)
  : M (list Sharp.Image) :=
  match items with
  | [] => mret imageBuffers
  | item :: rest =>
      imageBuffer ← renderRow backgroundImage item;
      renderRows backgroundImage rest (imageBuffers ++ [imageBuffer])
  end.

(** ** The grid (lines 175-200) *)

(** [a / b] on numbers followed by [Math.ceil] or [Math.floor].  The
    quotient is taken in the rationals; the double-precision quotient has the
    same ceiling and floor as long as [a] is below 2^32, which array lengths
    and indices are. *)
Definition Math_ceil (q : Q) : Z := Qceiling q.
Definition Math_floor (q : Q) : Z := Qfloor q.
Definition divide (a b : Z) : Q := (inject_Z a / inject_Z b)%Q.

Definition columns : Z := 3.
Definition boxWidth : Z := 800.
Definition boxHeight : Z := 200.
Definition totalWidth : Z := columns * boxWidth.

Definition totalHeight (rows : nat) : Z :=
  Math_ceil (divide (Z.of_nat rows) columns) * boxHeight.

Definition gridCanvas (rows : nat) : Sharp.Create :=
  {| Sharp.width := totalWidth; Sharp.height := totalHeight rows;
     Sharp.channels := 4; Sharp.background := Sharp.white |}.

(** The callback of [imageBuffers.map((buffer, index) => ...)]; [%] is the
    remainder that takes the sign of the dividend. *)
Definition gridCell (index : nat) (buffer : Sharp.Image)
  : Sharp.Overlay Sharp.Image :=
  {| Sharp.input := buffer;
     Sharp.top := Math_floor (divide (Z.of_nat index) columns) * boxHeight;
     Sharp.left := Z.rem (Z.of_nat index) columns * boxWidth |}.

Definition gridImage (rows : nat) (imageBuffers : list Sharp.Image)
  : Sharp.Image :=
  Sharp.composite (gridCanvas rows) (imap gridCell imageBuffers).

(** ** The handler (lines 33-225) *)

Record UploadedFile := { filename : string }.

(** The request after [upload.single('file')]: [req.file] is [undefined]
    when the form carries no file. *)
Record Request := { file : option UploadedFile }.

Definition backgroundImagePath : Path := [__dirname; "images"; "background.png"].
Definition stitchedImagePath : Path := [__dirname; "public"; "price-sheet.png"].
Definition pdfPath : Path := [__dirname; "public"; "price-sheet.pdf"].

(** Lines 39-51: the rows of the first sheet, and the removal of the upload. *)
Definition load (filePath : Path) : M (list Row) :=
  workbook ← xlsx_readFile filePath;
  let sheetName := Xlsx.SheetNames workbook !! 0%nat in
  let sheet := sheetName ≫= (Xlsx.Sheets workbook !!.) in
  let data := Xlsx.sheet_to_json sheet in
  console_log (ParsedData data);;
  fs_unlinkSync filePath;;
  mret data.

(** Lines 70-71 *)
Definition loadBackground : M (option Sharp.Image) :=
  found ← fs_existsSync backgroundImagePath;
  if found : bool
  then (img ← sharp_read backgroundImagePath; mret (Some img))
  else mret None.

(** Lines 183-217: the PNG file, and the PDF that embeds what was written. *)
Definition export (rows : nat) (imageBuffers : list Sharp.Image) : M unit :=
  sharp_toFile (gridCanvas rows) (imap gridCell imageBuffers)
    stitchedImagePath;;
  pngImageBytes ← fs_readFileSync stitchedImagePath;
  let page :=
    Pdf.Build_Page (totalWidth, totalHeight rows)
      [Pdf.Build_DrawImage pngImageBytes 0 0 totalWidth (totalHeight rows)] in
  fs_writeFileSync pdfPath (PdfBytes [page]).

Definition success : Response :=
  {| status := 200;
     body := Json [("message", "Price sheet generated successfully!");
                   ("imageUrl", "/price-sheet.png");
                   ("pdfUrl", "/price-sheet.pdf")] |}.

Definition upload (req : Request) : M unit :=
  match file req with
  | None => respond {| status := 400; body := Text "No file uploaded." |}
  | Some f =>
      let filePath := [__dirname; "uploads"; filename f] in
      data ← load filePath;
      let cleanedData := cleanedData data in
      console_log (CleanedData cleanedData);;
      backgroundImage ← loadBackground;
      imageBuffers ← renderRows backgroundImage cleanedData [];
      export (length cleanedData) imageBuffers;;
      respond success
  end.

(** A fresh run: nothing logged, no response yet. *)
Definition start (files : gmap Path File) : State :=
  {| fs := files; trace := []; response := None |}.

(** ** What the effectful steps compute, as functions of the file system

    The definitions below are not code of the handler: they name the result
    and the events of its loops, and the lemmas of the next part show that
    running the handler's code gives exactly them. *)

(** The state after some more events. *)
Definition logged (s : State) (events : list Event) : State :=
  {| fs := fs s; trace := trace s ++ events; response := response s |}.

Definition fileExists (files : gmap Path File) (p : Path) : bool :=
  bool_decide (is_Some (files !! p)).

(** The first of the candidate paths that exists, and the probes made. *)
Fixpoint resolveFrom (files : gmap Path File) (exts : list string)
    (slug : string) : option Path :=
  match exts with
  | [] => None
  | ext :: rest =>
      if fileExists files (imagePath slug ext)
      then Some (imagePath slug ext)
      else resolveFrom files rest slug
  end.

Fixpoint probesFrom (files : gmap Path File) (exts : list string)
    (slug : string) : list Event :=
  match exts with
  | [] => []
  | ext :: rest =>
      EvExists (imagePath slug ext) ::
      (if fileExists files (imagePath slug ext) then []
       else probesFrom files rest slug)
  end.

Definition resolve (files : gmap Path File) (slug : string) : option Path :=
  resolveFrom files extensions slug.

(** The product image of a row: none when no candidate exists, else what
    [sharp] decodes from the first candidate that exists. *)
Definition productImageOf (files : gmap Path File) (slug : string)
  : Js.Result (option Sharp.Image) :=
  match resolve files slug with
  | Some p => img ← decode files p; mret (Some img)
  | None => mret None
  end.

(** The three layers of a card. *)
Definition backgroundLayer (backgroundImage : option Sharp.Image)
  : list (Sharp.Overlay Sharp.Image) :=
  match backgroundImage with
  | Some bg => [overlay bg 0 0]
  | None => []
  end.

Definition productLayer (productImage : option Sharp.Image)
  : list (Sharp.Overlay Sharp.Image) :=
  match productImage with
  | Some img => [overlay (Sharp.resize img 150 150 Sharp.inside) 400 20]
  | None => []
  end.

Definition textLayer (f : Fields) : list (Sharp.Overlay Sharp.Image) :=
  [overlay (Sharp.buffer (svg f)) 0 0].

Definition cardLayers (backgroundImage productImage : option Sharp.Image)
    (f : Fields) : list (Sharp.Overlay Sharp.Image) :=
  backgroundLayer backgroundImage ++ productLayer productImage ++ textLayer f.

(** A card as a function of the shared background, the product image and
    the fields of the row. *)
Definition card (backgroundImage productImage : option Sharp.Image)
    (f : Fields) : Sharp.Image :=
  Sharp.composite cardCanvas (cardLayers backgroundImage productImage f).

(** The card of a row whose fields are [f], or the exception of [sharp]. *)
Definition fieldsCard (files : gmap Path File)
    (backgroundImage : option Sharp.Image) (f : Fields)
  : Js.Result Sharp.Image :=
  productImage ← productImageOf files (productImageSlug (text f));
  if renders cardCanvas (cardLayers backgroundImage productImage f)
  then mret (card backgroundImage productImage f)
  else Js.Throw Js.SharpError.

Definition rowCard (files : gmap Path File)
    (backgroundImage : option Sharp.Image) (item : gmap string Js.Value)
  : Js.Result Sharp.Image :=
  f ← fields item;
  fieldsCard files backgroundImage f.

(** The outside calls made for a row whose fields are [f]; the image file
    is read before [sharp] decides. *)
Definition rowEvents (files : gmap Path File) (f : Fields) : list Event :=
  let slug := productImageSlug (text f) in
  probesFrom files extensions slug ++
  [EvLog (LookingForImage slug);
   EvLog (ImagePath (resolve files slug));
   EvLog (match resolve files slug with
          | Some _ => ImageFound (text f)
          | None => NoImageFound (text f)
          end)] ++
  match resolve files slug with
  | Some p => [EvSharpRead p]
  | None => []
  end.

(** Result and events of the loop over the rows. *)
Fixpoint rowsResult (files : gmap Path File)
    (backgroundImage : option Sharp.Image)
    (items : list (gmap string Js.Value)) (imageBuffers : list Sharp.Image)
  : Js.Result (list Sharp.Image) * list Event :=
  match items with
  | [] => (Js.Ok imageBuffers, [])
  | item :: rest =>
      match fields item with
      | Js.Throw e => (Js.Throw e, [])
      | Js.Ok f =>
          match fieldsCard files backgroundImage f with
          | Js.Throw e => (Js.Throw e, rowEvents files f)
          | Js.Ok c =>
              let r := rowsResult files backgroundImage rest
                         (imageBuffers ++ [c]) in
              (r.1, rowEvents files f ++ r.2)
          end
      end
  end.

(** The shared background of a run, or the exception of [sharp]. *)
Definition background (files : gmap Path File)
  : Js.Result (option Sharp.Image) :=
  if fileExists files backgroundImagePath
  then (img ← decode files backgroundImagePath; mret (Some img))
  else mret None.

(** The rows of the first sheet of a workbook. *)
Definition firstSheet (workbook : Xlsx.WorkBook) : list Row :=
  Xlsx.sheet_to_json
    (Xlsx.SheetNames workbook !! 0%nat ≫= (Xlsx.Sheets workbook !!.)).

Definition uploadPath (f : UploadedFile) : Path :=
  [__dirname; "uploads"; filename f].

(** The events of the loader, of the steps between the loader and the loop
    over the rows, and of the export. *)
Definition uploadEvents (f : UploadedFile) (rows : list Row) : list Event :=
  [EvReadFile (uploadPath f); EvLog (ParsedData rows); EvUnlink (uploadPath f)].

Definition assetEvents (files : gmap Path File)
    (items : list (gmap string Js.Value)) : list Event :=
  EvLog (CleanedData items) :: EvExists backgroundImagePath ::
  (if fileExists files backgroundImagePath
   then [EvSharpRead backgroundImagePath] else []).

Definition exportEvents : list Event :=
  [EvToFile stitchedImagePath; EvReadFileSync stitchedImagePath;
   EvWriteFileSync pdfPath].

(** The two files written by a run over [rows] rows. *)
Definition exported (files : gmap Path File) (rows : nat)
    (imageBuffers : list Sharp.Image) : gmap Path File :=
  let png := Png (gridImage rows imageBuffers) in
  let page :=
    Pdf.Build_Page (totalWidth, totalHeight rows)
      [Pdf.Build_DrawImage png 0 0 totalWidth (totalHeight rows)] in
  <[pdfPath := {| data := PdfBytes [page]; removable := true |}]>
    (<[stitchedImagePath := {| data := png; removable := true |}]> files).

(** The header of a column with its white space removed at both ends. *)
Definition trimHeader (kv : string * Js.Value) : string * Js.Value :=
  (JsString.trim kv.1, kv.2).

(** ** Sample inputs *)

Definition number (truth : bool) (shown : string) : Js.Value :=
  Js.Num {| Js.toBoolean := truth; Js.toString := shown |}.

Definition fieldsOf (name price : string) : Fields :=
  {| text := name; price := price; oldPrice := EmptyString;
     discountInfo := EmptyString; description := EmptyString;
     category := EmptyString |}.

Definition eggsRow : Row :=
  [("Product", Js.Str "  Eggs  "); ("Price", Js.Str "$ 2 . 50");
   ("Old Price", number true "3")].

Definition eggsFields : Fields :=
  {| text := "Eggs"; price := "$2.50"; oldPrice := "3";
     discountInfo := EmptyString; description := EmptyString;
     category := EmptyString |}.

(** Four rows: a padded header, a padded name with a spaced-out price, a row
    without price and a row without product whose price is the number 0. *)
Definition sampleRows : list Row :=
  [ [("Product", Js.Str "Fresh Milk"); (" Price ", number true "9.99")];
    eggsRow;
    [("Product", Js.Str "Bread")];
    [("Price", number false "0")] ].

Definition sampleBook : Xlsx.WorkBook :=
  {| Xlsx.SheetNames := ["Sheet1"; "Sheet2"];
     Xlsx.Sheets := {[ "Sheet1" := sampleRows; "Sheet2" := [] ]} |}.

Definition sampleUpload : UploadedFile := {| filename := "3f2a9c" |}.

(** The upload, two candidate images of the first product and the shared
    background. *)
Definition sampleFiles : gmap Path File :=
  {[ uploadPath sampleUpload :=
       {| data := Spreadsheet sampleBook; removable := true |};
     imagePath "fresh-milk" ".jpg" :=
       {| data := Picture (Sharp.pixels "milk, as jpeg"); removable := true |};
     imagePath "fresh-milk" ".webp" :=
       {| data := Picture (Sharp.pixels "milk, as webp"); removable := true |};
     backgroundImagePath :=
       {| data := Png (Sharp.pixels "paper"); removable := true |} ]}.

Definition sampleBackground : option Sharp.Image :=
  Some (Sharp.pixels "paper").

Definition sampleCards : list Sharp.Image :=
  [ card sampleBackground (Some (Sharp.pixels "milk, as jpeg"))
      (fieldsOf "Fresh Milk" "9.99");
    card sampleBackground None eggsFields;
    card sampleBackground None (fieldsOf "Bread" "NoPrice");
    card sampleBackground None (fieldsOf "No Product" "NoPrice") ].

(** A second sheet that shares only its second row with [sampleRows]. *)
Definition otherRows : list Row := [ [("Product", Js.Str "Tea")]; eggsRow ].

Definition otherCards : list Sharp.Image :=
  [ card sampleBackground None (fieldsOf "Tea" "NoPrice");
    card sampleBackground None eggsFields ].

Definition sampleItem : gmap string Js.Value :=
  cleanRow [("Product", Js.Str "  Fresh   Milk "); (" Price ", number true "9.99")].

Definition sampleFields : Fields := fieldsOf "Fresh   Milk" "9.99".

(** Rows without a price: the column is absent, the cell is the empty
    string, the cell is the number zero. *)
Definition rowWithoutPrice : Row := [("Product", Js.Str "Milk")].
Definition rowWithEmptyPrice : Row :=
  [("Product", Js.Str "Milk"); ("Price", Js.Str EmptyString)].
Definition rowWithZeroPrice : Row :=
  [("Product", Js.Str "Milk"); ("Price", number false "0")].


(** A row whose product cell is a number. *)
Definition numericNameRow : Row :=
  [("Product", number true "1984"); ("Price", number true "12.5")].

(** A workbook without sheets, an upload that cannot be removed and an
    upload that [xlsx.readFile] cannot read. *)
Definition noSheetsBook : Xlsx.WorkBook :=
  {| Xlsx.SheetNames := []; Xlsx.Sheets := ∅ |}.

Definition noSheetsFiles : gmap Path File :=
  {[ uploadPath sampleUpload :=
       {| data := Spreadsheet noSheetsBook; removable := true |} ]}.

Definition lockedFiles : gmap Path File :=
  {[ uploadPath sampleUpload :=
       {| data := Spreadsheet sampleBook; removable := false |} ]}.

Definition unreadableFiles : gmap Path File :=
  {[ uploadPath sampleUpload := {| data := Other; removable := true |} ]}.

(** A sample of the decisions of [sharp]: a composition is refused when
    one of its overlays is a text buffer that holds an ampersand, which no
    XML parser accepts bare, and rendered otherwise. *)
Definition holdsAmpersand (s : string) : bool :=
  existsb (λ c, (JsString.code c =? 38)%N) (JsString.chars s).

Definition sampleRenders (create : Sharp.Create)
    (images : list (Sharp.Overlay Sharp.Image)) : bool :=
  forallb (λ image,
             match Sharp.input image with
             | Sharp.buffer s => negb (holdsAmpersand s)
             | _ => true
             end) images.

(** A row whose name holds an ampersand, and a file system in which the
    image of the eggs is not an image. *)
Definition fishRow : Row := [("Product", Js.Str "Fish & Chips")].

Definition fishFields : Fields := fieldsOf "Fish & Chips" "NoPrice".

Definition brokenImageFiles : gmap Path File :=
  {[ imagePath "eggs" ".png" := {| data := Other; removable := true |} ]}.

(** ** Columns and further sample inputs *)

(** The keys read at lines 87-92, and the four of them that are trimmed
    with [.trim()] without going through [String]. *)
Definition columnsRead : list string :=
  ["Product"; "Price"; "Old Price"; "Discount Info"; "Description"; "Category"].

Definition textColumns : list string :=
  ["Product"; "Discount Info"; "Description"; "Category"].

(** A row whose headers are none of the columns read: the names differ by
    case or by an inner space. *)
Definition foreignRow : Row :=
  [("product", Js.Str "Milk"); (" PRICE ", number true "3");
   ("OldPrice", Js.Str "4")].

(** A row with two headers that trim to the same name. *)
Definition collidingRow : Row :=
  [("Price", Js.Str "1"); (" Price ", Js.Str "2"); ("Product ", Js.Str "Tea")].

(** A sheet whose second row has a number as product name, and the upload
    that holds it. *)
Definition badRows : list Row := [eggsRow; numericNameRow; eggsRow].

Definition badBook : Xlsx.WorkBook :=
  {| Xlsx.SheetNames := ["Sheet1"];
     Xlsx.Sheets := {[ "Sheet1" := badRows ]} |}.

Definition badFiles : gmap Path File :=
  {[ uploadPath sampleUpload :=
       {| data := Spreadsheet badBook; removable := true |};
     stitchedImagePath :=
       {| data := Png (Sharp.buffer "old"); removable := true |} ]}.

(** The sample workbook with other sheets after the first one. *)
Definition sampleBookWithOtherSheets : Xlsx.WorkBook :=
  {| Xlsx.SheetNames := ["Sheet1"; "Prices"; "Notes"];
     Xlsx.Sheets := {[ "Sheet1" := sampleRows; "Prices" := otherRows;
                       "Notes" := badRows ]} |}.

(** * Properties *)

(** ** Strings *)

Section StringFacts.
Import JsString.

Lemma append_String c s t : String c s +:+ t = String c (s +:+ t).
Proof. reflexivity. Qed.

Lemma chars_app s t : chars (s +:+ t) = chars s ++ chars t.
Proof. induction s as [|c s IH]; simpl; [done|by rewrite IH]. Qed.

(** Replacing the runs by the empty string deletes the white space and
    keeps everything else, in order. *)
Lemma replaceRuns_empty_chars b s :
  chars (replaceRuns EmptyString b s)
  = filter (λ c, isWhiteSpace c = false) (chars s).
Proof.
  revert b; induction s as [|c s IH]; intros b; simpl; [done|].
  destruct (isWhiteSpace c) eqn:Hc.
  - rewrite filter_cons_False by (rewrite Hc; done).
    destruct b; simpl; apply IH.
  - rewrite filter_cons_True by done. simpl. by rewrite IH.
Qed.

Lemma replaceWhiteSpace_empty_noWhiteSpace s :
  noWhiteSpace (replaceWhiteSpace EmptyString s).
Proof.
  unfold noWhiteSpace, replaceWhiteSpace. rewrite replaceRuns_empty_chars.
  apply Forall_forall. intros c Hc. by apply list_elem_of_filter in Hc as [? _].
Qed.


Lemma trimStart_spec s :
  ∃ l, s = l +:+ trimStart s ∧ allWhiteSpace l ∧
       ∀ c, head (chars (trimStart s)) = Some c → isWhiteSpace c = false.
Proof.
  induction s as [|c s (l & Hs & Hl & Hh)]; simpl.
  - exists EmptyString. repeat split; [constructor|done].
  - destruct (isWhiteSpace c) eqn:Hc.
    + exists (String c l). split; [by rewrite append_String, <-Hs|].
      split; [by constructor|done].
    + exists EmptyString. repeat split; [constructor|].
      simpl. by intros ? [= <-].
Qed.

Lemma trimEnd_spec s :
  ∃ r, s = trimEnd s +:+ r ∧ allWhiteSpace r.
Proof.
  induction s as [|c s (r & Hs & Hr)]; simpl.
  - exists EmptyString. split; [done|constructor].
  - destruct (trimEnd s) as [|d u] eqn:Hu.
    + change (s = r) in Hs. subst r. destruct (isWhiteSpace c) eqn:Hc.
      * exists (String c s). split; [done|]. by constructor.
      * exists s. by split.
    + exists r. split; [|done]. by rewrite append_String, <-Hs.
Qed.

Lemma trimEnd_last s c :
  last (chars (trimEnd s)) = Some c → isWhiteSpace c = false.
Proof.
  induction s as [|a s IH]; simpl; [done|].
  destruct (trimEnd s) as [|d u] eqn:Hu.
  - destruct (isWhiteSpace a) eqn:Ha; simpl; [done|]. by intros [= <-].
  - simpl in *. done.
Qed.

Lemma trimEnd_head s c :
  isWhiteSpace c = false →
  head (chars (trimEnd (String c s))) = Some c.
Proof. intros Hc; simpl. destruct (trimEnd s); [by rewrite Hc|done]. Qed.

Lemma trim_trimmed s : trimmed (trim s).
Proof.
  split; [|apply trimEnd_last].
  unfold trim. destruct (trimStart_spec s) as (l & _ & _ & Hh).
  destruct (trimStart s) as [|d t]; simpl in Hh; [done|].
  pose proof (Hh d eq_refl) as Hd. rewrite (trimEnd_head _ _ Hd).
  by intros ? [= <-].
Qed.

(** [trim] removes a white-space prefix and a white-space suffix and
    nothing else. *)
Lemma trim_spec s :
  ∃ l r, s = l +:+ trim s +:+ r ∧ allWhiteSpace l ∧ allWhiteSpace r ∧
         trimmed (trim s).
Proof.
  destruct (trimStart_spec s) as (l & Hs & Hl & _).
  destruct (trimEnd_spec (trimStart s)) as (r & Ht & Hr).
  exists l, r. repeat split; try done; try apply trim_trimmed.
  unfold trim. by rewrite <-Ht.
Qed.

End StringFacts.

(** ** Running the effects *)

(** Unfold the primitive effects and run them. *)
Ltac run_effects :=
  unfold console_log, sharp_read, sharp_composite, sharp_toFile,
    fs_readFileSync, fs_writeFileSync, xlsx_readFile, fs_unlinkSync, emit,
    getFs, setFs, throw, respond, lift, mbind, M_bind, mret, M_ret;
  cbn.

Section Runs.

Lemma logged_nil s : logged s [] = s.
Proof. destruct s; unfold logged; simpl. by rewrite app_nil_r. Qed.

Lemma logged_logged s e1 e2 : logged (logged s e1) e2 = logged s (e1 ++ e2).
Proof. unfold logged; simpl. by rewrite app_assoc. Qed.

Lemma fs_existsSync_run p s :
  fs_existsSync p s = (Js.Ok (fileExists (fs s) p), logged s [EvExists p]).
Proof. reflexivity. Qed.

Lemma sharp_read_run p s :
  sharp_read p s = (decode (fs s) p, logged s [EvSharpRead p]).
Proof. reflexivity. Qed.

Lemma findProductImageFrom_run exts slug s :
  findProductImageFrom exts slug s
  = (Js.Ok (resolveFrom (fs s) exts slug),
     logged s (probesFrom (fs s) exts slug)).
Proof.
  revert s; induction exts as [|ext rest IH]; intros s; simpl.
  - by rewrite logged_nil.
  - unfold mbind, M_bind. rewrite fs_existsSync_run.
    destruct (fileExists (fs s) (imagePath slug ext)); [done|].
    rewrite IH. by rewrite logged_logged.
Qed.

(** One row: a TypeError of the fields leaves the state as it is; otherwise
    the lookups, the log lines and the read of the image file happen, and
    the result is the card or the exception of [sharp]. *)
Lemma renderRow_run backgroundImage item s :
  renderRow backgroundImage item s
  = match fields item with
    | Js.Ok f =>
        (fieldsCard (fs s) backgroundImage f, logged s (rowEvents (fs s) f))
    | Js.Throw e => (Js.Throw e, s)
    end.
Proof.
  unfold renderRow, mbind at 1, M_bind, lift.
  destruct (fields item) as [f|e]; [|done].
  unfold findProductImage, mbind at 1, M_bind.
  rewrite findProductImageFrom_run.
  unfold fieldsCard, productImageOf, rowEvents, card, cardLayers, resolve,
    backgroundLayer, productLayer, textLayer.
  generalize (probesFrom (fs s) extensions (productImageSlug (text f))).
  intros probes.
  destruct (resolveFrom (fs s) extensions (productImageSlug (text f)))
    as [p|].
  - run_effects. destruct (decode (fs s) p) as [img|e]; cbn.
    + destruct backgroundImage; cbn;
        match goal with |- context [renders ?c ?l] =>
          destruct (renders c l) end;
        unfold logged; cbn; rewrite <-?app_assoc; reflexivity.
    + unfold logged; cbn; rewrite <-?app_assoc; reflexivity.
  - run_effects.
    destruct backgroundImage; cbn;
      match goal with |- context [renders ?c ?l] =>
        destruct (renders c l) end;
      unfold logged; cbn; rewrite <-?app_assoc; reflexivity.
Qed.

Lemma renderRows_run backgroundImage items imageBuffers s :
  renderRows backgroundImage items imageBuffers s
  = ((rowsResult (fs s) backgroundImage items imageBuffers).1,
     logged s (rowsResult (fs s) backgroundImage items imageBuffers).2).
Proof.
  revert imageBuffers s; induction items as [|item rest IH];
    intros imageBuffers s; simpl.
  - by rewrite logged_nil.
  - unfold mbind, M_bind. rewrite renderRow_run.
    destruct (fields item) as [f|e]; simpl; [|by rewrite logged_nil].
    destruct (fieldsCard (fs s) backgroundImage f) as [c|e]; simpl; [|done].
    rewrite IH. simpl. by rewrite logged_logged.
Qed.

Lemma loadBackground_run s :
  loadBackground s
  = (background (fs s),
     logged s (EvExists backgroundImagePath ::
               if fileExists (fs s) backgroundImagePath
               then [EvSharpRead backgroundImagePath] else [])).
Proof.
  unfold loadBackground, background, mbind at 1, M_bind.
  rewrite fs_existsSync_run.
  destruct (fileExists (fs s) backgroundImagePath); [|done].
  unfold mbind at 1, M_bind. rewrite sharp_read_run. cbn [fs logged].
  rewrite logged_logged.
  by destruct (decode (fs s) backgroundImagePath).
Qed.

(** The loader: it throws on an unreadable file before anything else
    happens, and on a failed removal after the rows were read and logged. *)
Lemma load_run p s :
  load p s
  = match data <$> fs s !! p with
    | Some (Spreadsheet workbook) =>
        let rows := firstSheet workbook in
        match removable <$> fs s !! p with
        | Some true =>
            (Js.Ok rows,
             {| fs := delete p (fs s);
                trace := trace s ++ [EvReadFile p; EvLog (ParsedData rows);
                                     EvUnlink p];
                response := response s |})
        | _ =>
            (Js.Throw Js.FsError,
             logged s [EvReadFile p; EvLog (ParsedData rows); EvUnlink p])
        end
    | _ => (Js.Throw Js.XlsxError, logged s [EvReadFile p])
    end.
Proof.
  unfold load, firstSheet. run_effects.
  destruct (fs s !! p) as [[d rm]|] eqn:E; cbn; [|done].
  destruct d; cbn; try done.
  rewrite E. destruct rm; cbn; unfold logged; cbn; by rewrite <-!app_assoc.
Qed.

(** The export: nothing happens on a canvas that the constructor rejects,
    only the call of [toFile] when [sharp] fails, and both files are
    written otherwise. *)
Lemma export_run rows imageBuffers s :
  export rows imageBuffers s
  = if validCreate (gridCanvas rows)
    then if renders (gridCanvas rows) (imap gridCell imageBuffers)
         then (Js.Ok (),
               {| fs := exported (fs s) rows imageBuffers;
                  trace := trace s ++ exportEvents;
                  response := response s |})
         else (Js.Throw Js.SharpError, logged s [EvToFile stitchedImagePath])
    else (Js.Throw Js.SharpError, s).
Proof.
  unfold export, sharp_toFile, mbind at 1, M_bind.
  destruct (validCreate (gridCanvas rows)); [|done].
  unfold mbind at 1, M_bind, emit.
  destruct (renders (gridCanvas rows) (imap gridCell imageBuffers)); [|done].
  run_effects. rewrite lookup_insert_eq. cbn.
  unfold exported, exportEvents, gridImage. by rewrite <-!app_assoc.
Qed.

End Runs.

(** ** The fields of a row *)

Section FieldFacts.

(** When the six fields can be read, the four that are trimmed as text
    come from strings, and each field is as lines 87-92 compute it. *)
Lemma fields_inv item f :
  fields item = Js.Ok f →
  ∃ name discount descr cat,
    productName item = Js.Str name ∧
    Js.or (get item "Discount Info") (Js.Str EmptyString) = Js.Str discount ∧
    Js.or (get item "Description") (Js.Str EmptyString) = Js.Str descr ∧
    Js.or (get item "Category") (Js.Str EmptyString) = Js.Str cat ∧
    f = {| text := JsString.trim name;
           price := JsString.replaceWhiteSpace EmptyString
                      (JsString.trim (Js.String_ (priceValue item)));
           oldPrice := JsString.replaceWhiteSpace EmptyString
                         (JsString.trim
                            (Js.String_ (Js.or (get item "Old Price")
                                               (Js.Str EmptyString))));
           discountInfo := JsString.trim discount;
           description := JsString.trim descr;
           category := JsString.trim cat |}.
Proof.
  unfold fields, mbind, result_bind, mret, result_ret.
  destruct (productName item) as [| |?|?|name]; cbn; try done.
  destruct (Js.or (get item "Discount Info") _) as [| |?|?|discount];
    cbn; try done.
  destruct (Js.or (get item "Description") _) as [| |?|?|descr];
    cbn; try done.
  destruct (Js.or (get item "Category") _) as [| |?|?|cat]; cbn; try done.
  intros [= <-]. by exists name, discount, descr, cat.
Qed.

Lemma trim_throw v e : Js.trim v = Js.Throw e → e = Js.TypeError.
Proof. destruct v; cbn; congruence. Qed.

Lemma fields_throw item e : fields item = Js.Throw e → e = Js.TypeError.
Proof.
  unfold fields, mbind, result_bind.
  repeat (match goal with
          | |- context [Js.trim ?v] =>
              let H := fresh "H" in
              destruct (Js.trim v) as [?|?] eqn:H; cbn;
              [|apply trim_throw in H; congruence]
          end).
  done.
Qed.

(** A truthy cell that is not a string in one of the four text columns
    makes the extraction throw. *)
Lemma fields_throws item key v :
  key ∈ ["Product"; "Discount Info"; "Description"; "Category"] →
  get item key = v → Js.truthy v = true → (∀ s, v ≠ Js.Str s) →
  fields item = Js.Throw Js.TypeError.
Proof.
  intros Hkey Hget Htrue Hstr.
  destruct (fields item) as [f|e] eqn:Hf.
  - exfalso.
    apply fields_inv in Hf as (n & d & e & c & Hn & Hd & He & Hc & _).
    unfold productName, Js.or in *.
    repeat (apply elem_of_cons in Hkey as [->|Hkey]);
      [..|by apply elem_of_nil in Hkey];
      rewrite Hget, Htrue in *; by eapply Hstr.
  - by rewrite (fields_throw _ _ Hf).
Qed.

Example numeric_name_throws :
  fields (cleanRow numericNameRow) = Js.Throw Js.TypeError.
Proof. vm_compute; reflexivity. Qed.

Example slug_of_padded_name :
  productImageSlug (JsString.trim "  Fresh   Milk ") = "fresh-milk".
Proof. vm_compute; reflexivity. Qed.

Lemma resolveFrom_spec files exts slug :
  match resolveFrom files exts slug with
  | Some p =>
      ∃ before ext after,
        exts = before ++ ext :: after ∧ p = imagePath slug ext ∧
        is_Some (files !! p) ∧
        ∀ e, e ∈ before → files !! imagePath slug e = None
  | None => ∀ e, e ∈ exts → files !! imagePath slug e = None
  end.
Proof.
  induction exts as [|ext rest IH]; simpl.
  - by intros e ?%elem_of_nil.
  - unfold fileExists. case_bool_decide as Hex.
    + exists [], ext, rest. repeat split; [done|]. by intros e ?%elem_of_nil.
    + apply eq_None_not_Some in Hex.
      destruct (resolveFrom files rest slug) as [p|].
      * destruct IH as (before & e' & after & -> & -> & Hp & Hbefore).
        exists (ext :: before), e', after. repeat split; [done|].
        intros e [->|?]%elem_of_cons; auto.
      * intros e [->|?]%elem_of_cons; auto.
Qed.

End FieldFacts.

(** ** The loop over the rows and the whole handler *)

Section Handler.

Lemma rowCard_fields files backgroundImage item c :
  rowCard files backgroundImage item = Js.Ok c →
  ∃ f, fields item = Js.Ok f ∧ fieldsCard files backgroundImage f = Js.Ok c.
Proof.
  unfold rowCard, mbind, result_bind.
  destruct (fields item) as [f|e]; [|done]. by exists f.
Qed.

Lemma rowsResult_ok files backgroundImage items imageBuffers cards :
  Forall2 (λ item c, rowCard files backgroundImage item = Js.Ok c)
          items cards →
  (rowsResult files backgroundImage items imageBuffers).1
  = Js.Ok (imageBuffers ++ cards).
Proof.
  intros H; revert imageBuffers.
  induction H as [|item c items cards Hc _ IH]; intros imageBuffers; simpl.
  - by rewrite app_nil_r.
  - apply rowCard_fields in Hc as (f & -> & ->). simpl.
    rewrite IH. by rewrite <-app_assoc.
Qed.

Lemma rowsResult_inv files backgroundImage items imageBuffers buffers :
  (rowsResult files backgroundImage items imageBuffers).1 = Js.Ok buffers →
  ∃ cards, buffers = imageBuffers ++ cards ∧
    Forall2 (λ item c, rowCard files backgroundImage item = Js.Ok c)
            items cards.
Proof.
  revert imageBuffers; induction items as [|item items IH];
    intros imageBuffers; simpl.
  - intros [= <-]. exists []. by rewrite app_nil_r.
  - destruct (fields item) as [f|e] eqn:Hf; [|done].
    destruct (fieldsCard files backgroundImage f) as [c|e] eqn:Hc; [|done].
    simpl. intros (cards & -> & Hcards)%IH.
    exists (c :: cards). rewrite <-app_assoc. split; [done|].
    constructor; [|done]. unfold rowCard, mbind, result_bind. by rewrite Hf.
Qed.

Lemma decode_exn files p e :
  decode files p = Js.Throw e → e = Js.SharpError.
Proof. unfold decode. destruct (data <$> files !! p) as [[]|]; congruence. Qed.

Lemma fieldsCard_exn files backgroundImage f e :
  fieldsCard files backgroundImage f = Js.Throw e → e = Js.SharpError.
Proof.
  unfold fieldsCard, productImageOf, mbind, result_bind, mret, result_ret.
  destruct (resolve files (productImageSlug (text f))) as [p|].
  - destruct (decode files p) as [img|e'] eqn:Hd.
    + destruct (renders _ _); congruence.
    + intros [= <-]. by apply decode_exn in Hd.
  - destruct (renders _ _); congruence.
Qed.

Lemma background_exn files e :
  background files = Js.Throw e → e = Js.SharpError.
Proof.
  unfold background, mbind, result_bind, mret, result_ret.
  destruct (fileExists files backgroundImagePath); [|done].
  destruct (decode files backgroundImagePath) as [img|e'] eqn:Hd; [done|].
  intros [= <-]. by apply decode_exn in Hd.
Qed.

(** The exceptions of the loop are the TypeError of the fields and the
    exception of [sharp]. *)
Lemma rowsResult_exn files backgroundImage items imageBuffers e :
  (rowsResult files backgroundImage items imageBuffers).1 = Js.Throw e →
  e = Js.TypeError ∨ e = Js.SharpError.
Proof.
  revert imageBuffers; induction items as [|item items IH];
    intros imageBuffers; simpl; [done|].
  destruct (fields item) as [f|e'] eqn:Hf.
  - destruct (fieldsCard files backgroundImage f) as [c|e'] eqn:Hc; simpl.
    + apply IH.
    + intros [= <-]. right. by apply fieldsCard_exn in Hc.
  - simpl. intros [= <-]. left. by apply fields_throw in Hf.
Qed.

(** The handler on a request that carries a file, step by step. *)
Lemma upload_run f s :
  upload {| file := Some f |} s
  = match load (uploadPath f) s with
    | (Js.Throw e, s1) => (Js.Throw e, s1)
    | (Js.Ok rows, s1) =>
        let items := cleanedData rows in
        match background (fs s1) with
        | Js.Throw e => (Js.Throw e, logged s1 (assetEvents (fs s1) items))
        | Js.Ok backgroundImage =>
            let r := rowsResult (fs s1) backgroundImage items [] in
            match r.1 with
            | Js.Throw e =>
                (Js.Throw e, logged s1 (assetEvents (fs s1) items ++ r.2))
            | Js.Ok imageBuffers =>
                if validCreate (gridCanvas (length items))
                then if renders (gridCanvas (length items))
                          (imap gridCell imageBuffers)
                     then (Js.Ok (),
                           {| fs := exported (fs s1) (length items) imageBuffers;
                              trace := trace s1 ++ assetEvents (fs s1) items
                                         ++ r.2 ++ exportEvents;
                              response := Some success |})
                     else (Js.Throw Js.SharpError,
                           logged s1 (assetEvents (fs s1) items ++ r.2
                                        ++ [EvToFile stitchedImagePath]))
                else (Js.Throw Js.SharpError,
                      logged s1 (assetEvents (fs s1) items ++ r.2))
            end
        end
    end.
Proof.
  unfold upload; cbn [file]. fold (uploadPath f).
  unfold mbind at 1, M_bind.
  destruct (load (uploadPath f) s) as [[rows|e] s1]; [|done].
  unfold mbind at 1, M_bind, console_log, emit.
  unfold mbind at 1, M_bind. rewrite loadBackground_run. cbn [fs].
  cbn zeta. unfold assetEvents.
  destruct (background (fs s1)) as [backgroundImage|e].
  2:{ unfold logged. cbn [fs trace response].
      f_equal; f_equal; rewrite <-?app_assoc; reflexivity. }
  unfold mbind at 1, M_bind. rewrite renderRows_run. cbn [fs logged].
  destruct (rowsResult (fs s1) backgroundImage (cleanedData rows) []).1
    as [imageBuffers|e] eqn:Hr.
  2:{ unfold logged. cbn [fs trace response].
      f_equal; f_equal; rewrite <-?app_assoc; reflexivity. }
  unfold mbind at 1, M_bind. rewrite export_run.
  destruct (validCreate (gridCanvas (length (cleanedData rows)))).
  2:{ unfold logged. cbn [fs trace response].
      f_equal; f_equal; rewrite <-?app_assoc; reflexivity. }
  destruct (renders _ _).
  - unfold respond, logged. cbn [fs trace response].
    f_equal; f_equal; rewrite <-?app_assoc; reflexivity.
  - unfold logged. cbn [fs trace response].
    f_equal; f_equal; rewrite <-?app_assoc; reflexivity.
Qed.

Lemma upload_throws_with_load f s e s1 :
  load (uploadPath f) s = (Js.Throw e, s1) →
  upload {| file := Some f |} s = (Js.Throw e, s1).
Proof. intros H. by rewrite upload_run, H. Qed.

(** Once the loader has returned, the background probe is made, and the
    run does not end with the exception of the loader. *)
Lemma upload_reaches_assets f s rows s1 :
  load (uploadPath f) s = (Js.Ok rows, s1) →
  EvExists backgroundImagePath ∈ trace (upload {| file := Some f |} s).2 ∧
  (upload {| file := Some f |} s).1 ≠ Js.Throw Js.XlsxError.
Proof.
  intros H. rewrite upload_run, H. cbn zeta.
  assert (∀ rest, EvExists backgroundImagePath
            ∈ trace s1 ++ assetEvents (fs s1) (cleanedData rows) ++ rest)
    as Hin.
  { intros rest. apply elem_of_app; right. apply elem_of_app; left.
    unfold assetEvents. apply elem_of_cons; right. apply list_elem_of_here. }
  destruct (background (fs s1)) as [backgroundImage|e] eqn:Hbg.
  2:{ cbn [fst snd trace logged]. split.
      - rewrite <-(app_nil_r (assetEvents _ _)). apply Hin.
      - intros [= ->]. by apply background_exn in Hbg. }
  destruct (rowsResult _ _ _ _).1 as [buffers|e] eqn:Hr.
  2:{ cbn [fst snd trace logged]. split; [apply Hin|].
      intros [= ->]. by destruct (rowsResult_exn _ _ _ _ _ Hr). }
  destruct (validCreate _); [destruct (renders _ _)|];
    cbn [fst snd trace logged]; (split; [|done]).
  - apply Hin.
  - apply Hin.
  - rewrite <-(app_nil_r (rowsResult _ _ _ _).2). apply Hin.
Qed.

Lemma load_cases p s :
  (∃ rows,
     load p s
     = (Js.Ok rows,
        {| fs := delete p (fs s);
           trace := trace s ++ [EvReadFile p; EvLog (ParsedData rows);
                                EvUnlink p];
           response := response s |})) ∨
  (∃ e events, load p s = (Js.Throw e, logged s events)).
Proof.
  rewrite load_run.
  destruct (data <$> fs s !! p) as [[wb| | | |]|]; cbn zeta; eauto.
  destruct (removable <$> fs s !! p) as [[]|]; eauto.
Qed.

(** Whatever happens after the loader, the file system changes only by the
    two output files, and a response is set only with them. *)
Lemma upload_after_load f s rows s1 :
  load (uploadPath f) s = (Js.Ok rows, s1) →
  ((upload {| file := Some f |} s).1 = Js.Ok () ∧
   (∃ imageBuffers,
      fs (upload {| file := Some f |} s).2
      = exported (fs s1) (length (cleanedData rows)) imageBuffers ∧
      length imageBuffers = length rows) ∧
   response (upload {| file := Some f |} s).2 = Some success) ∨
  ((∃ e, (upload {| file := Some f |} s).1 = Js.Throw e) ∧
   fs (upload {| file := Some f |} s).2 = fs s1 ∧
   response (upload {| file := Some f |} s).2 = response s1).
Proof.
  intros H. rewrite upload_run, H. cbn zeta.
  destruct (background (fs s1)) as [backgroundImage|e]; [|right; eauto].
  destruct (rowsResult _ _ _ _).1 as [buffers|e] eqn:Hr; [|right; eauto].
  destruct (validCreate _); [destruct (renders _ _)|];
    [left|right; eauto|right; eauto].
  split; [done|]. split; [|done]. exists buffers. split; [done|].
  apply rowsResult_inv in Hr as (cards & -> & Hcards).
  apply Forall2_length in Hcards. unfold cleanedData in Hcards.
  rewrite length_fmap in Hcards. by rewrite Hcards.
Qed.

End Handler.

(** ** The loader and its failures *)

Section Failures.

Lemma upload_unreadable files f :
  (∀ workbook, data <$> files !! uploadPath f ≠ Some (Spreadsheet workbook)) →
  upload {| file := Some f |} (start files)
  = (Js.Throw Js.XlsxError,
     {| fs := files; trace := [EvReadFile (uploadPath f)];
        response := None |}).
Proof.
  intros H. apply upload_throws_with_load. rewrite load_run. cbn [fs start].
  destruct (data <$> files !! uploadPath f) as [[wb| | | |]|] eqn:E; try done.
  by destruct (H wb).
Qed.

Lemma upload_locked files f workbook :
  data <$> files !! uploadPath f = Some (Spreadsheet workbook) →
  removable <$> files !! uploadPath f ≠ Some true →
  upload {| file := Some f |} (start files)
  = (Js.Throw Js.FsError,
     {| fs := files; trace := uploadEvents f (firstSheet workbook);
        response := None |}).
Proof.
  intros Hread Hrm. apply upload_throws_with_load.
  rewrite load_run. cbn [fs start]. rewrite Hread. cbn zeta.
  by destruct (removable <$> files !! uploadPath f) as [[]|].
Qed.

Lemma load_ok files f workbook :
  data <$> files !! uploadPath f = Some (Spreadsheet workbook) →
  removable <$> files !! uploadPath f = Some true →
  load (uploadPath f) (start files)
  = (Js.Ok (firstSheet workbook),
     {| fs := delete (uploadPath f) files;
        trace := uploadEvents f (firstSheet workbook);
        response := None |}).
Proof.
  intros Hread Hrm. rewrite load_run. cbn [fs start].
  by rewrite Hread, Hrm.
Qed.

Lemma firstSheet_no_sheets workbook :
  Xlsx.SheetNames workbook = [] → firstSheet workbook = [].
Proof. unfold firstSheet. by intros ->. Qed.

End Failures.

(** ** The grid *)

Section Grid.

Lemma Math_ceil_divide_columns a :
  Math_ceil (divide a columns) = (a + 2) / 3.
Proof.
  unfold Math_ceil, divide, columns, Qceiling, Qfloor, Qdiv, Qmult, Qinv,
    Qopp, inject_Z; cbn.
  rewrite Z.mul_1_r. Z.div_mod_to_equations. lia.
Qed.

Lemma Math_floor_divide_columns a :
  Math_floor (divide a columns) = a / 3.
Proof.
  unfold Math_floor, divide, columns, Qfloor, Qdiv, Qmult, Qinv, inject_Z;
    cbn.
  by rewrite Z.mul_1_r.
Qed.

Lemma totalHeight_eq n : totalHeight n = (Z.of_nat n + 2) / 3 * 200.
Proof. unfold totalHeight. by rewrite Math_ceil_divide_columns. Qed.

Lemma gridCell_eq i buffer :
  gridCell i buffer
  = {| Sharp.input := buffer;
       Sharp.left := Z.of_nat i `mod` 3 * 800;
       Sharp.top := Z.of_nat i / 3 * 200 |}.
Proof.
  unfold gridCell. rewrite Math_floor_divide_columns.
  unfold columns. rewrite Z.rem_mod_nonneg by lia. done.
Qed.

(** The cells of seven cards. *)
Example grid_cells_of_seven :
  (λ o, (Sharp.left o, Sharp.top o))
    <$> imap gridCell (replicate 7 (Sharp.buffer EmptyString))
  = [(0, 0); (800, 0); (1600, 0); (0, 200); (800, 200); (1600, 200); (0, 400)].
Proof. vm_compute; reflexivity. Qed.

Example grid_heights :
  totalHeight <$> [0; 1; 3; 4; 7]%nat = [0; 200; 200; 400; 600].
Proof. vm_compute; reflexivity. Qed.

End Grid.

(** ** The claims about the grid *)

Section GridRun.

Lemma validCreate_grid n : validCreate (gridCanvas n) = true ↔ (0 < n)%nat.
Proof.
  unfold validCreate, gridCanvas. cbn [Sharp.width Sharp.height].
  rewrite totalHeight_eq, andb_true_iff, !Z.ltb_lt.
  unfold totalWidth, columns, boxWidth.
  split; [intros [_ H]|intros H; split; [lia|]];
    Z.div_mod_to_equations; lia.
Qed.

(** A readable, removable upload with at least one row, whose background
    and rows [sharp] reads and renders and whose grid it renders: the
    handler runs to the end, writes both files and answers with the links. *)
Lemma upload_ok files f workbook backgroundImage cards :
  data <$> files !! uploadPath f = Some (Spreadsheet workbook) →
  removable <$> files !! uploadPath f = Some true →
  background (delete (uploadPath f) files) = Js.Ok backgroundImage →
  Forall2 (λ row c,
             rowCard (delete (uploadPath f) files) backgroundImage
               (cleanRow row) = Js.Ok c)
          (firstSheet workbook) cards →
  (0 < length (firstSheet workbook))%nat →
  renders (gridCanvas (length (firstSheet workbook))) (imap gridCell cards)
  = true →
  ∃ s', upload {| file := Some f |} (start files) = (Js.Ok (), s') ∧
        response s' = Some success ∧
        data <$> fs s' !! stitchedImagePath
        = Some (Png (gridImage (length (firstSheet workbook)) cards)).
Proof.
  intros Hread Hrm Hbg Hcards Hn Hgrid.
  rewrite upload_run, (load_ok _ _ _ Hread Hrm). cbn zeta. cbn [fs].
  rewrite Hbg. unfold cleanedData.
  rewrite (rowsResult_ok _ _ _ [] cards) by (by apply Forall2_fmap_l).
  cbn [app]. rewrite length_fmap.
  rewrite (proj2 (validCreate_grid _) Hn), Hgrid.
  eexists. split; [reflexivity|]. cbn [fs response]. split; [done|].
  unfold exported. rewrite lookup_insert_ne by done.
  by rewrite lookup_insert_eq.
Qed.

End GridRun.

(** C1. For a readable upload with N >= 1 rows, whose background and cards
    [sharp] reads and renders and whose grid it renders, the handler writes
    a PNG whose canvas is 3 x 800 wide and ceil(N/3) x 200 high, opaque
    white, and whose layer [i] is the card of row [i] of the first sheet at
    left = (i mod 3) x 800, top = floor(i/3) x 200: row-major, in sheet
    order, one layer per row, every cell inside the canvas. *)
Theorem grid_layout files f workbook backgroundImage cards :
  data <$> files !! uploadPath f = Some (Spreadsheet workbook) →
  removable <$> files !! uploadPath f = Some true →
  background (delete (uploadPath f) files) = Js.Ok backgroundImage →
  Forall2 (λ row c,
             rowCard (delete (uploadPath f) files) backgroundImage
               (cleanRow row) = Js.Ok c)
          (firstSheet workbook) cards →
  (0 < length (firstSheet workbook))%nat →
  renders (gridCanvas (length (firstSheet workbook))) (imap gridCell cards)
  = true →
  let n := length (firstSheet workbook) in
  let gridRows := (Z.of_nat n + 2) / 3 in
  ∃ s' layers,
    upload {| file := Some f |} (start files) = (Js.Ok (), s') ∧
    data <$> fs s' !! stitchedImagePath
    = Some (Png (Sharp.composite
                   {| Sharp.width := 3 * 800;
                      Sharp.height := gridRows * 200;
                      Sharp.channels := 4;
                      Sharp.background :=
                        {| Sharp.r := 255; Sharp.g := 255; Sharp.b := 255;
                           Sharp.alpha := 1 |} |}
                   layers)) ∧
    3 * (gridRows - 1) < Z.of_nat n ≤ 3 * gridRows ∧
    length layers = n ∧
    ∀ (i : nat) c, cards !! i = Some c →
      layers !! i
      = Some {| Sharp.input := c;
                Sharp.left := Z.of_nat i `mod` 3 * 800;
                Sharp.top := Z.of_nat i / 3 * 200 |} ∧
      Z.of_nat i `mod` 3 * 800 + 800 ≤ 3 * 800 ∧
      Z.of_nat i / 3 * 200 + 200 ≤ gridRows * 200.
Proof.
  intros Hread Hrm Hbg Hcards Hn Hgrid n gridRows.
  destruct (upload_ok _ _ _ _ _ Hread Hrm Hbg Hcards Hn Hgrid)
    as (s' & Hrun & _ & Hpng).
  exists s', (imap gridCell cards).
  assert (length cards = n) as Hlen by (symmetry; eapply Forall2_length, Hcards).
  split; [done|]. split.
  { rewrite Hpng. unfold gridImage, gridCanvas, totalWidth, columns, boxWidth.
    fold n. by rewrite totalHeight_eq. }
  split; [subst gridRows; Z.div_mod_to_equations; lia|].
  split; [by rewrite length_imap|].
  intros i c Hi. rewrite list_lookup_imap, Hi. cbn. rewrite gridCell_eq.
  split; [done|].
  apply lookup_lt_Some in Hi. subst gridRows. rewrite Hlen in Hi.
  Z.div_mod_to_equations. lia.
Qed.

(** ** The claims about the table and its fields *)

Section TableFacts.

Lemma cleanRow_snoc row kv :
  cleanRow (row ++ [kv]) = <[JsString.trim kv.1 := kv.2]> (cleanRow row).
Proof. unfold cleanRow. by rewrite foldl_app. Qed.

(** A cleaned row holds, under a key, the value of the last column whose
    trimmed header is that key. *)
Lemma cleanRow_lookup row key :
  cleanRow row !! key
  = snd <$> last (filter (λ kv, JsString.trim kv.1 = key) row).
Proof.
  induction row as [|kv row IH] using rev_ind; [done|].
  rewrite cleanRow_snoc, filter_app.
  destruct (decide (JsString.trim kv.1 = key)) as [Heq|Hne].
  - rewrite filter_cons_True, filter_nil by done.
    by rewrite last_snoc, Heq, lookup_insert_eq.
  - rewrite filter_cons_False, filter_nil, app_nil_r by done.
    by rewrite lookup_insert_ne.
Qed.

(** Only the trimmed headers matter. *)
Lemma cleanRow_trimHeader row row' :
  trimHeader <$> row = trimHeader <$> row' → cleanRow row = cleanRow row'.
Proof.
  intros H. apply map_eq; intros key. rewrite !cleanRow_lookup.
  assert (∀ r : Row,
    snd <$> last (filter (λ kv, JsString.trim kv.1 = key) r)
    = snd <$> last (filter (λ kv : string * Js.Value, kv.1 = key)
                           (trimHeader <$> r))) as Hr.
  { intros r; induction r as [|kv r IH] using rev_ind; [done|].
    rewrite fmap_app, !filter_app. cbn [fmap list_fmap].
    destruct (decide (JsString.trim kv.1 = key)) as [Heq|Hne].
    - rewrite (filter_cons_True _ kv), (filter_cons_True _ (trimHeader kv))
        by done.
      by rewrite !filter_nil, !last_snoc.
    - rewrite (filter_cons_False _ kv), (filter_cons_False _ (trimHeader kv))
        by done.
      by rewrite !filter_nil, !app_nil_r. }
  by rewrite !Hr, H.
Qed.

Lemma filter_allWhiteSpace l :
  JsString.allWhiteSpace l →
  filter (λ c, JsString.isWhiteSpace c = false) (JsString.chars l) = [].
Proof.
  unfold JsString.allWhiteSpace. induction 1 as [|c cs Hc _ IH]; [done|].
  rewrite filter_cons_False by (rewrite Hc; done). done.
Qed.

(** Trimming and then deleting the white space deletes exactly the white
    space of the original string. *)
Lemma strip_chars t :
  JsString.chars (JsString.replaceWhiteSpace EmptyString (JsString.trim t))
  = filter (λ c, JsString.isWhiteSpace c = false) (JsString.chars t).
Proof.
  unfold JsString.replaceWhiteSpace. rewrite replaceRuns_empty_chars.
  destruct (trim_spec t) as (l & r & Ht & Hl & Hr & _).
  rewrite Ht at 2. rewrite !chars_app, !filter_app.
  by rewrite (filter_allWhiteSpace l Hl), (filter_allWhiteSpace r Hr), app_nil_r.
Qed.

End TableFacts.




(** C10. In a row whose fields can be read, Price and Old Price lose every
    white-space character, interior ones included, and keep all other
    characters in order; Product, Description and Discount Info lose only a
    white-space prefix and a white-space suffix. *)
Theorem price_stripped_text_trimmed item f :
  fields item = Js.Ok f →
  (JsString.noWhiteSpace (price f) ∧
   JsString.chars (price f)
   = filter (λ c, JsString.isWhiteSpace c = false)
            (JsString.chars (Js.String_ (priceValue item)))) ∧
  (JsString.noWhiteSpace (oldPrice f) ∧
   JsString.chars (oldPrice f)
   = filter (λ c, JsString.isWhiteSpace c = false)
            (JsString.chars
               (Js.String_ (Js.or (get item "Old Price") (Js.Str EmptyString))))) ∧
  (get item "Price" = Js.Str "$ 9 . 99" → price f = "$9.99") ∧
  (∃ name l r,
     productName item = Js.Str name ∧ name = l +:+ text f +:+ r ∧
     JsString.allWhiteSpace l ∧ JsString.allWhiteSpace r ∧
     JsString.trimmed (text f)) ∧
  (∃ descr l r,
     Js.or (get item "Description") (Js.Str EmptyString) = Js.Str descr ∧
     descr = l +:+ description f +:+ r ∧
     JsString.allWhiteSpace l ∧ JsString.allWhiteSpace r ∧
     JsString.trimmed (description f)) ∧
  (∃ discount l r,
     Js.or (get item "Discount Info") (Js.Str EmptyString) = Js.Str discount ∧
     discount = l +:+ discountInfo f +:+ r ∧
     JsString.allWhiteSpace l ∧ JsString.allWhiteSpace r ∧
     JsString.trimmed (discountInfo f)).
Proof.
  intros (n & d & e & c & Hn & Hd & He & Hc & ->)%fields_inv. cbn.
  split; [split; [apply replaceWhiteSpace_empty_noWhiteSpace|apply strip_chars]|].
  split; [split; [apply replaceWhiteSpace_empty_noWhiteSpace|apply strip_chars]|].
  split; [unfold priceValue; by intros ->|].
  split; [|split].
  - destruct (trim_spec n) as (l & r & ? & ? & ? & ?). by exists n, l, r.
  - destruct (trim_spec e) as (l & r & ? & ? & ? & ?). by exists e, l, r.
  - destruct (trim_spec d) as (l & r & ? & ? & ? & ?). by exists d, l, r.
Qed.

Lemma price_stripped_text_trimmed_witness :
  fields (cleanRow [("Product", Js.Str " Fresh  Milk "); ("Price", Js.Str "$ 9 . 99")])
  = Js.Ok (fieldsOf "Fresh  Milk" "$9.99") ∧
  JsString.noWhiteSpace "$9.99".
Proof.
  assert (fields (cleanRow [("Product", Js.Str " Fresh  Milk ");
                            ("Price", Js.Str "$ 9 . 99")])
          = Js.Ok (fieldsOf "Fresh  Milk" "$9.99")) as H
    by (vm_compute; reflexivity).
  split; [exact H|].
  exact (proj1 (proj1 (price_stripped_text_trimmed _ _ H))).
Defined.

(** C9. The placeholder of the price does not reach the card as written:
    with the Price column absent, empty or zero the price field is
    [NoPrice], without the space, while the placeholder of the product
    name is rendered as [No Product]. *)
Theorem missing_price_placeholder :
  fields (cleanRow rowWithoutPrice) = Js.Ok (fieldsOf "Milk" "NoPrice") ∧
  fields (cleanRow rowWithEmptyPrice) = Js.Ok (fieldsOf "Milk" "NoPrice") ∧
  fields (cleanRow rowWithZeroPrice) = Js.Ok (fieldsOf "Milk" "NoPrice") ∧
  fields (cleanRow [("Product", Js.Str EmptyString); ("Price", Js.Str "5")])
  = Js.Ok (fieldsOf "No Product" "5").
Proof. repeat split; vm_compute; reflexivity. Qed.

(** ** The claims about the asset lookup and the card *)

Section SlugFacts.
Import JsString.

Lemma chars_inj s t : chars s = chars t → s = t.
Proof.
  revert t; induction s as [|c s IH]; intros [|d t]; simpl; try done.
  intros [= -> H]. by rewrite (IH t H).
Qed.

Lemma isWhiteSpace_lowerChar c : isWhiteSpace (lowerChar c) = isWhiteSpace c.
Proof. by destruct c as [[] [] [] [] [] [] [] []]. Qed.

Lemma lowerChar_idem c : lowerChar (lowerChar c) = lowerChar c.
Proof. by destruct c as [[] [] [] [] [] [] [] []]. Qed.

Lemma toLowerCase_idem s : toLowerCase (toLowerCase s) = toLowerCase s.
Proof. induction s as [|c s IH]; simpl; [done|]. by rewrite lowerChar_idem, IH. Qed.

Lemma toLowerCase_app s t :
  toLowerCase (s +:+ t) = toLowerCase s +:+ toLowerCase t.
Proof.
  induction s as [|c s IH]; [done|].
  rewrite append_String. simpl. rewrite IH. reflexivity.
Qed.

Lemma toLowerCase_replaceRuns r b s :
  toLowerCase (replaceRuns r b s)
  = replaceRuns (toLowerCase r) b (toLowerCase s).
Proof.
  revert b; induction s as [|c s IH]; intros b; simpl; [done|].
  rewrite isWhiteSpace_lowerChar. destruct (isWhiteSpace c).
  - destruct b; [apply IH|]. by rewrite toLowerCase_app, IH.
  - simpl. by rewrite IH.
Qed.

Lemma replaceRuns_noWhiteSpace r b s :
  noWhiteSpace r → noWhiteSpace (replaceRuns r b s).
Proof.
  intros Hr. revert b; induction s as [|c s IH]; intros b; simpl.
  - constructor.
  - destruct (isWhiteSpace c) eqn:Hc.
    + destruct b; [apply IH|].
      unfold noWhiteSpace. rewrite chars_app. apply Forall_app.
      split; [exact Hr|apply IH].
    + apply Forall_cons. split; [exact Hc|apply IH].
Qed.

Lemma replaceRuns_id r b s : noWhiteSpace s → replaceRuns r b s = s.
Proof.
  unfold noWhiteSpace. revert b; induction s as [|c s IH]; intros b; simpl.
  - done.
  - intros [Hc Hs]%Forall_cons. rewrite Hc. by rewrite IH.
Qed.

Lemma trimStart_id s :
  (∀ c, head (chars s) = Some c → isWhiteSpace c = false) → trimStart s = s.
Proof. destruct s as [|c s]; simpl; [done|]. intros H. by rewrite (H c). Qed.

Lemma trimEnd_id s :
  (∀ c, last (chars s) = Some c → isWhiteSpace c = false) → trimEnd s = s.
Proof.
  induction s as [|a s IH]; simpl; [done|]. intros H.
  destruct s as [|b s'].
  - simpl. by rewrite (H a).
  - rewrite IH; [done|]. intros c Hc. apply H. by simpl in *.
Qed.

Lemma trim_id s : trimmed s → trim s = s.
Proof. intros [Hh Hl]. unfold trim. by rewrite (trimStart_id s Hh), trimEnd_id. Qed.

Lemma trim_idem s : trim (trim s) = trim s.
Proof. apply trim_id, trim_trimmed. Qed.

Lemma lowerChar_not_capital c : ¬ (65 ≤ code (lowerChar c) ≤ 90)%N.
Proof.
  destruct c as [[] [] [] [] [] [] [] []]; vm_compute;
    intros [H1 H2]; by (apply H1 || apply H2).
Qed.

Lemma toLowerCase_not_capital s :
  Forall (λ c, ¬ (65 ≤ code c ≤ 90)%N) (chars (toLowerCase s)).
Proof.
  induction s as [|c s IH]; simpl; constructor;
    [apply lowerChar_not_capital|done].
Qed.

Lemma Forall_replaceRuns (P : ascii → Prop) r b s :
  Forall P (chars r) → Forall P (chars s) →
  Forall P (chars (replaceRuns r b s)).
Proof.
  intros Hr. revert b; induction s as [|c s IH]; intros b; simpl; [done|].
  intros [Hc Hs]%Forall_cons. destruct (isWhiteSpace c).
  - destruct b; [by apply IH|].
    rewrite chars_app. apply Forall_app. split; [done|by apply IH].
  - apply Forall_cons. split; [done|by apply IH].
Qed.

Lemma hyphen_noWhiteSpace : noWhiteSpace "-".
Proof. by repeat constructor. Qed.

Lemma slug_noWhiteSpace t : noWhiteSpace (productImageSlug t).
Proof. apply replaceRuns_noWhiteSpace, hyphen_noWhiteSpace. Qed.

Lemma slug_not_capital t :
  Forall (λ c, ¬ (65 ≤ code c ≤ 90)%N) (chars (productImageSlug t)).
Proof.
  unfold productImageSlug, replaceWhiteSpace.
  apply Forall_replaceRuns; [|apply toLowerCase_not_capital].
  repeat constructor. vm_compute. intros [H _]. by apply H.
Qed.

End SlugFacts.

(** C2. For a row whose fields can be read, the product name is a string
    and the slug is that name trimmed, then lowercased, then with every run
    of white space replaced by one hyphen: it holds no white space and no
    capital letter A-Z, and the padded name [  Fresh   Milk ] gives
    [fresh-milk].  [findProductImage] returns without throwing the first
    of [images/<slug>.png], [.jpg], [.jpeg], [.webp] that exists, in this
    order, or [null] when none exists, and the handler logs this slug and
    this result for the row. *)
Theorem slug_and_lookup backgroundImage item f s :
  fields item = Js.Ok f →
  ∃ name slug found s',
    productName item = Js.Str name ∧
    slug = JsString.replaceWhiteSpace "-"
             (JsString.toLowerCase (JsString.trim name)) ∧
    JsString.noWhiteSpace slug ∧
    Forall (λ c, ¬ (65 ≤ JsString.code c ≤ 90)%N) (JsString.chars slug) ∧
    (name = "  Fresh   Milk " → slug = "fresh-milk") ∧
    findProductImage slug s = (Js.Ok found, s') ∧ fs s' = fs s ∧
    match found with
    | Some p =>
        ∃ before ext after,
          [".png"; ".jpg"; ".jpeg"; ".webp"] = before ++ ext :: after ∧
          p = [__dirname; "images"; slug +:+ ext] ∧
          is_Some (fs s !! p) ∧
          ∀ e, e ∈ before → fs s !! [__dirname; "images"; slug +:+ e] = None
    | None =>
        ∀ e, e ∈ [".png"; ".jpg"; ".jpeg"; ".webp"] →
             fs s !! [__dirname; "images"; slug +:+ e] = None
    end ∧
    EvLog (LookingForImage slug)
      ∈ trace (renderRow backgroundImage item s).2 ∧
    EvLog (ImagePath found) ∈ trace (renderRow backgroundImage item s).2.
Proof.
  intros Hf.
  pose proof Hf as (name & d & e & c & Hname & _ & _ & _ & ->)%fields_inv.
  exists name, (productImageSlug (JsString.trim name)),
    (resolve (fs s) (productImageSlug (JsString.trim name))).
  unfold findProductImage. rewrite findProductImageFrom_run.
  eexists. split; [done|]. split; [done|].
  split; [apply slug_noWhiteSpace|]. split; [apply slug_not_capital|].
  split; [by intros ->|].
  split; [done|]. split; [done|].
  split; [apply resolveFrom_spec|].
  rewrite renderRow_run, Hf. unfold logged, rowEvents. cbn [snd trace text].
  split.
  - apply elem_of_app; right. apply elem_of_app; right.
    apply elem_of_app; left. apply list_elem_of_here.
  - apply elem_of_app; right. apply elem_of_app; right.
    apply elem_of_app; left. apply elem_of_cons; right.
    apply list_elem_of_here.
Qed.

(** C3. For a row whose fields can be read, whose product image, if one
    was found, [sharp] decodes, and whose composition [sharp] renders, the
    card is the blank opaque white 800 x 200 canvas with, in this order:
    the background at (0,0) when one was loaded; the product image resized
    to fit inside 150 x 150 at (400,20) when one was found; the text
    overlay at (0,0).  Without a candidate file the card has no product
    layer, without [background.png] no background is loaded, and neither
    absence throws. *)
Theorem card_layers backgroundImage item f s productImage :
  fields item = Js.Ok f →
  productImageOf (fs s) (productImageSlug (text f)) = Js.Ok productImage →
  let canvas :=
    {| Sharp.width := 800; Sharp.height := 200; Sharp.channels := 4;
       Sharp.background :=
         {| Sharp.r := 255; Sharp.g := 255; Sharp.b := 255;
            Sharp.alpha := 1 |} |} in
  let layers :=
    match backgroundImage with
    | Some bg => [{| Sharp.input := bg; Sharp.left := 0; Sharp.top := 0 |}]
    | None => []
    end ++
    match productImage with
    | Some img =>
        [{| Sharp.input := Sharp.resize img 150 150 Sharp.inside;
            Sharp.left := 400; Sharp.top := 20 |}]
    | None => []
    end ++
    [{| Sharp.input := Sharp.buffer (svg f);
        Sharp.left := 0; Sharp.top := 0 |}] in
  renders canvas layers = true →
  (∃ s', renderRow backgroundImage item s
         = (Js.Ok (Sharp.composite canvas layers), s')) ∧
  (resolve (fs s) (productImageSlug (text f)) = None → productImage = None) ∧
  (∀ p, resolve (fs s) (productImageSlug (text f)) = Some p →
        ∃ img, decode (fs s) p = Js.Ok img ∧ productImage = Some img) ∧
  (∀ s0, fs s0 !! [__dirname; "images"; "background.png"] = None →
         ∃ s1, loadBackground s0 = (Js.Ok None, s1)) ∧
  (∀ s0 img,
     decode (fs s0) [__dirname; "images"; "background.png"] = Js.Ok img →
     ∃ s1, loadBackground s0 = (Js.Ok (Some img), s1)).
Proof.
  intros Hf Himg canvas layers Hrenders.
  split; [|split; [|split; [|split]]].
  - rewrite renderRow_run, Hf. unfold fieldsCard. rewrite Himg.
    unfold mbind, result_bind.
    change (cardLayers backgroundImage productImage f) with layers.
    change cardCanvas with canvas. rewrite Hrenders. by eexists.
  - unfold productImageOf in Himg. intros Hnone. rewrite Hnone in Himg.
    by injection Himg as <-.
  - unfold productImageOf in Himg. intros p Hp. rewrite Hp in Himg.
    unfold mbind, result_bind in Himg.
    destruct (decode (fs s) p) as [img|e]; [|done].
    injection Himg as <-. by exists img.
  - intros s0 Hnone. rewrite loadBackground_run. unfold background, fileExists.
    fold backgroundImagePath in Hnone |- *. rewrite Hnone.
    rewrite bool_decide_eq_false_2 by (by intros [? ?]). by eexists.
  - intros s0 img Hdec. rewrite loadBackground_run. unfold background.
    fold backgroundImagePath in Hdec. rewrite Hdec.
    assert (fileExists (fs s0) backgroundImagePath = true) as ->.
    { unfold fileExists, decode in *. apply bool_decide_eq_true_2.
      destruct (fs s0 !! backgroundImagePath); [eauto|done]. }
    by eexists.
Qed.

(** ** The claims about failures and the temporary file *)

(** C6. Without a file the handler only sets the response: status 400 with
    the plain text [No file uploaded.]; the file system and the trace of
    outside calls are left as they were. *)
Theorem no_file_rejected s :
  upload {| file := None |} s
  = (Js.Ok (),
     {| fs := fs s; trace := trace s;
        response := Some {| status := 400; body := Text "No file uploaded." |} |}).
Proof. reflexivity. Qed.

(** C5, as the code has it. When [xlsx.readFile] cannot read the upload the
    handler stops at that call with the library's exception: nothing else is
    called, the file system is untouched and the handler sets no response.
    A workbook without sheets is not an error for the loader: it is read as
    zero rows, the upload is removed, and the handler goes on to probe the
    background image; it never ends with the loader's exception. *)
Theorem load_failure files f :
  ((∀ workbook, data <$> files !! uploadPath f ≠ Some (Spreadsheet workbook)) →
   upload {| file := Some f |} (start files)
   = (Js.Throw Js.XlsxError,
      {| fs := files; trace := [EvReadFile (uploadPath f)];
         response := None |})) ∧
  (∀ workbook,
     data <$> files !! uploadPath f = Some (Spreadsheet workbook) →
     removable <$> files !! uploadPath f = Some true →
     Xlsx.SheetNames workbook = [] →
     load (uploadPath f) (start files)
     = (Js.Ok [],
        {| fs := delete (uploadPath f) files; trace := uploadEvents f [];
           response := None |}) ∧
     EvExists backgroundImagePath
       ∈ trace (upload {| file := Some f |} (start files)).2 ∧
     (upload {| file := Some f |} (start files)).1 ≠ Js.Throw Js.XlsxError).
Proof.
  split; [apply upload_unreadable|].
  intros workbook Hread Hrm Hnames.
  pose proof (load_ok _ _ _ Hread Hrm) as Hload.
  rewrite (firstSheet_no_sheets _ Hnames) in Hload.
  split; [done|].
  destruct (upload_reaches_assets _ _ _ _ Hload) as [Hin Hexn].
  split; [done|]. intros Hthrow. by apply Hexn in Hthrow.
Qed.

(** C7, as the code has it. After a successful read the upload is removed
    right after the rows were read and logged, before any other call, and it
    is gone in the final state.  When reading throws, no removal is
    attempted and the file stays.  When the removal throws, the handler
    stops there: nothing is logged about it, no later step runs and the
    handler sets no response. *)
Theorem temp_file_removal files f :
  (∀ workbook,
     data <$> files !! uploadPath f = Some (Spreadsheet workbook) →
     removable <$> files !! uploadPath f = Some true →
     load (uploadPath f) (start files)
     = (Js.Ok (firstSheet workbook),
        {| fs := delete (uploadPath f) files;
           trace := [EvReadFile (uploadPath f);
                     EvLog (ParsedData (firstSheet workbook));
                     EvUnlink (uploadPath f)];
           response := None |}) ∧
     fs (upload {| file := Some f |} (start files)).2 !! uploadPath f = None) ∧
  ((∀ workbook, data <$> files !! uploadPath f ≠ Some (Spreadsheet workbook)) →
   upload {| file := Some f |} (start files)
   = (Js.Throw Js.XlsxError,
      {| fs := files; trace := [EvReadFile (uploadPath f)];
         response := None |})) ∧
  (∀ workbook,
     data <$> files !! uploadPath f = Some (Spreadsheet workbook) →
     removable <$> files !! uploadPath f ≠ Some true →
     upload {| file := Some f |} (start files)
     = (Js.Throw Js.FsError,
        {| fs := files;
           trace := [EvReadFile (uploadPath f);
                     EvLog (ParsedData (firstSheet workbook));
                     EvUnlink (uploadPath f)];
           response := None |})).
Proof.
  split; [|split; [apply upload_unreadable|apply upload_locked]].
  intros workbook Hread Hrm. pose proof (load_ok _ _ _ Hread Hrm) as Hload.
  split; [done|].
  destruct (upload_after_load _ _ _ _ Hload)
    as [(_ & (buffers & -> & _) & _)|(_ & -> & _)]; cbn [fs].
  - unfold exported. rewrite !lookup_insert_ne by done.
    apply lookup_delete_eq.
  - apply lookup_delete_eq.
Qed.

(** ** The claim about the independence of the cards *)

(** C8. In two runs of the loop that both reach their end, with the same
    background, a row that sits at the same index in both and for which
    both runs decode the same product image (or both find none) gives the
    same card, whatever the other rows, the other files, the traces and the
    responses are: the card is [card] applied to the background, the
    decoded product image and the fields of that row.  The card does
    depend on the decoded image: another image gives another card. *)
Theorem card_independence backgroundImage items1 items2 s1 s2
    buffers1 buffers2 (i : nat) item :
  (renderRows backgroundImage items1 [] s1).1 = Js.Ok buffers1 →
  (renderRows backgroundImage items2 [] s2).1 = Js.Ok buffers2 →
  items1 !! i = Some item →
  items2 !! i = Some item →
  (∀ f, fields item = Js.Ok f →
        productImageOf (fs s1) (productImageSlug (text f))
        = productImageOf (fs s2) (productImageSlug (text f))) →
  ∃ f productImage,
    fields item = Js.Ok f ∧
    productImageOf (fs s1) (productImageSlug (text f)) = Js.Ok productImage ∧
    buffers1 !! i = Some (card backgroundImage productImage f) ∧
    buffers2 !! i = buffers1 !! i ∧
    ∀ productImage', productImage' ≠ productImage →
      card backgroundImage productImage' f
      ≠ card backgroundImage productImage f.
Proof.
  intros H1 H2 Hi1 Hi2 Hres.
  rewrite renderRows_run in H1, H2. cbn [fst] in H1, H2.
  apply rowsResult_inv in H1 as (cards1 & -> & Hc1).
  apply rowsResult_inv in H2 as (cards2 & -> & Hc2).
  cbn [app].
  destruct (Forall2_lookup_l _ _ _ _ _ Hc1 Hi1) as (c1 & Hl1 & Hr1).
  destruct (Forall2_lookup_l _ _ _ _ _ Hc2 Hi2) as (c2 & Hl2 & Hr2).
  unfold rowCard in Hr1, Hr2. destruct (fields item) as [f|e]; [|done].
  cbn in Hr1, Hr2. unfold fieldsCard in Hr1, Hr2.
  rewrite <-(Hres f eq_refl) in Hr2.
  destruct (productImageOf (fs s1) (productImageSlug (text f)))
    as [productImage|e] eqn:Himg; [|done].
  cbn in Hr1, Hr2.
  destruct (renders _ _); [|done].
  injection Hr1 as <-. injection Hr2 as <-.
  exists f, productImage. split; [done|]. split; [done|].
  split; [done|]. split; [by rewrite Hl1, Hl2|].
  intros productImage' Hne Heq. apply Hne.
  unfold card, cardLayers in Heq. injection Heq as Heq.
  apply app_inv_head in Heq. apply app_inv_tail in Heq.
  destruct productImage' as [img'|], productImage as [img|];
    unfold productLayer, overlay in Heq; congruence.
Qed.

(** * Further properties of the handler *)

(** ** Slugs and trimming *)

(** X2. The slug is in normal form: it holds no white space and no capital
    letter A-Z, lowercasing it changes nothing, the slug of a slug is the
    slug, and the slug does not depend on the case of the name: a name in
    capitals with a run of blanks gives the slug of the plain name. *)
Theorem slug_normal_form t :
  JsString.noWhiteSpace (productImageSlug t) ∧
  Forall (λ c, ¬ (65 ≤ JsString.code c ≤ 90)%N)
         (JsString.chars (productImageSlug t)) ∧
  JsString.toLowerCase (productImageSlug t) = productImageSlug t ∧
  productImageSlug (productImageSlug t) = productImageSlug t ∧
  productImageSlug (JsString.toLowerCase t) = productImageSlug t ∧
  productImageSlug "FRESH 	 Milk" = "fresh-milk".
Proof.
  assert (JsString.toLowerCase (productImageSlug t) = productImageSlug t)
    as Hlower.
  { unfold productImageSlug, JsString.replaceWhiteSpace.
    rewrite toLowerCase_replaceRuns, toLowerCase_idem. reflexivity. }
  split; [apply slug_noWhiteSpace|]. split; [apply slug_not_capital|].
  split; [done|]. split; [|split].
  - unfold productImageSlug at 1. rewrite Hlower.
    apply replaceRuns_id, slug_noWhiteSpace.
  - unfold productImageSlug. by rewrite toLowerCase_idem.
  - reflexivity.
Qed.

Section RowFacts.

Lemma cleanRow_lookup_elem row key v :
  cleanRow row !! key = Some v →
  ∃ k, (k, v) ∈ row ∧ JsString.trim k = key.
Proof.
  rewrite cleanRow_lookup. intros Hlast.
  destruct (last _) as [[k v']|] eqn:Hl; simplify_eq/=.
  apply last_Some_elem_of, list_elem_of_filter in Hl as [Hk Hin].
  by exists k.
Qed.

Lemma cleanRow_size row : (size (cleanRow row) ≤ length row)%nat.
Proof.
  induction row as [|kv row IH] using rev_ind; [done|].
  rewrite cleanRow_snoc, map_size_insert, length_app. simpl.
  destruct (cleanRow row !! _); simpl; lia.
Qed.

Lemma get_unread row key :
  (∀ kv, kv ∈ row → JsString.trim kv.1 ≠ key) →
  get (cleanRow row) key = Js.Undefined.
Proof.
  intros H. unfold get. destruct (cleanRow row !! key) as [v|] eqn:Hv; [|done].
  apply cleanRow_lookup_elem in Hv as (k & Hin & Hk). by destruct (H _ Hin).
Qed.

Lemma trim_or_throw v d e :
  Js.trim (Js.or v (Js.Str d)) = Js.Throw e →
  Js.truthy v = true ∧ ∀ s, v ≠ Js.Str s.
Proof.
  unfold Js.or. destruct (Js.truthy v) eqn:Hv; [|done].
  intros H. split; [done|]. by intros s ->.
Qed.

End RowFacts.

(** X3. A key of a cleaned row is the trimmed header of one of the columns
    of the row, with that column's value; it neither starts nor ends with
    white space, and trimming it again changes nothing.  The cleaned row
    has at most as many keys as the row has columns, and cleaning a row
    whose headers were already trimmed gives the same record. *)
Theorem cleaned_keys (row : Row) key v :
  cleanRow row !! key = Some v →
  (∃ k, (k, v) ∈ row ∧ JsString.trim k = key) ∧
  JsString.trimmed key ∧ JsString.trim key = key ∧
  (size (cleanRow row) ≤ length row)%nat ∧
  cleanRow (trimHeader <$> row) = cleanRow row.
Proof.
  intros Hv. pose proof Hv as (k & Hin & <-)%cleanRow_lookup_elem.
  split; [by exists k|]. split; [apply trim_trimmed|].
  split; [apply trim_idem|]. split; [apply cleanRow_size|].
  apply cleanRow_trimHeader. rewrite <-list_fmap_compose.
  apply list_fmap_ext. intros i [k' v'] _. unfold trimHeader; simpl.
  by rewrite trim_idem.
Qed.

Lemma cleaned_keys_witness :
  cleanRow collidingRow !! "Price" = Some (Js.Str "2") ∧
  (size (cleanRow collidingRow) ≤ 3)%nat ∧
  JsString.trim "Price" = "Price".
Proof.
  assert (cleanRow collidingRow !! "Price" = Some (Js.Str "2")) as H
    by (vm_compute; reflexivity).
  split; [exact H|].
  destruct (cleaned_keys collidingRow "Price" (Js.Str "2") H)
    as (_ & _ & Htrim & Hsize & _).
  split; [exact Hsize|exact Htrim].
Defined.

(** X11. A row none of whose trimmed headers is one of the six columns read
    (the empty row, or headers in another case) renders the placeholders
    and empty texts, without throwing. *)
Theorem unknown_columns_give_placeholders (row : Row) :
  (∀ kv, kv ∈ row → JsString.trim kv.1 ∉ columnsRead) →
  fields (cleanRow row) = Js.Ok (fieldsOf "No Product" "NoPrice").
Proof.
  intros H.
  assert (∀ key, key ∈ columnsRead → get (cleanRow row) key = Js.Undefined)
    as Hget.
  { intros key Hkey. apply get_unread. intros kv Hin Heq.
    apply (H kv Hin). by rewrite Heq. }
  unfold fields, productName, priceValue.
  rewrite !Hget by (unfold columnsRead; set_solver).
  vm_compute; reflexivity.
Qed.

Lemma unknown_columns_give_placeholders_witness :
  fields (cleanRow foreignRow) = Js.Ok (fieldsOf "No Product" "NoPrice") ∧
  fields (cleanRow []) = Js.Ok (fieldsOf "No Product" "NoPrice").
Proof.
  split.
  - apply (unknown_columns_give_placeholders foreignRow).
    intros kv Hin.
    repeat (apply elem_of_cons in Hin as [->|Hin]);
      [..|by apply elem_of_nil in Hin];
      vm_compute; intros Hkey;
      repeat (apply elem_of_cons in Hkey as [Hkey|Hkey]; [discriminate Hkey|]);
      by apply elem_of_nil in Hkey.
  - apply (unknown_columns_give_placeholders []).
    intros kv Hin. by apply elem_of_nil in Hin.
Defined.

(** X12. Reading the fields throws exactly when one of Product, Discount
    Info, Description and Category holds a truthy value that is not a
    string (a non-zero number, [true]); the exception is then a TypeError.
    Price and Old Price never make it throw. *)
Theorem fields_throw_iff item :
  fields item = Js.Throw Js.TypeError ↔
  ∃ key, key ∈ textColumns ∧ Js.truthy (get item key) = true ∧
         ∀ s, get item key ≠ Js.Str s.
Proof.
  split.
  - unfold fields, productName, mbind, result_bind.
    destruct (Js.trim (Js.or (get item "Product") _)) as [?|?] eqn:H1.
    2:{ intros _. destruct (trim_or_throw _ _ _ H1) as [Htrue Hstr].
        exists "Product". split; [unfold textColumns; set_solver|done]. }
    destruct (Js.trim (Js.or (get item "Discount Info") _)) as [?|?] eqn:H2.
    2:{ intros _. destruct (trim_or_throw _ _ _ H2) as [Htrue Hstr].
        exists "Discount Info". split; [unfold textColumns; set_solver|done]. }
    destruct (Js.trim (Js.or (get item "Description") _)) as [?|?] eqn:H3.
    2:{ intros _. destruct (trim_or_throw _ _ _ H3) as [Htrue Hstr].
        exists "Description". split; [unfold textColumns; set_solver|done]. }
    destruct (Js.trim (Js.or (get item "Category") _)) as [?|?] eqn:H4.
    2:{ intros _. destruct (trim_or_throw _ _ _ H4) as [Htrue Hstr].
        exists "Category". split; [unfold textColumns; set_solver|done]. }
    done.
  - intros (key & Hkey & Htrue & Hstr).
    by apply (fields_throws item key (get item key)).
Qed.

Lemma fields_throw_iff_witness :
  fields (cleanRow numericNameRow) = Js.Throw Js.TypeError.
Proof.
  apply (proj2 (fields_throw_iff (cleanRow numericNameRow))).
  exists "Product". split; [unfold textColumns; apply list_elem_of_here|].
  split; [vm_compute; reflexivity|].
  intros s. vm_compute. discriminate.
Defined.

(** X13. In a row whose fields can be read, a falsy Product cell gives the
    name [No Product], a falsy Price cell gives the price [NoPrice], falsy
    Old Price, Discount Info and Description cells give empty texts, and
    whatever the cells hold the price is never the text [No Price]. *)
Theorem placeholder_defaults item f :
  fields item = Js.Ok f →
  (Js.truthy (get item "Product") = false → text f = "No Product") ∧
  (Js.truthy (get item "Price") = false → price f = "NoPrice") ∧
  price f ≠ "No Price" ∧
  (Js.truthy (get item "Old Price") = false → oldPrice f = EmptyString) ∧
  (Js.truthy (get item "Discount Info") = false →
   discountInfo f = EmptyString) ∧
  (Js.truthy (get item "Description") = false → description f = EmptyString).
Proof.
  intros (n & d & e & c & Hn & Hd & He & Hc & ->)%fields_inv. cbn.
  unfold productName, priceValue, Js.or in *.
  split; [intros H; rewrite H in Hn; by injection Hn as <-|].
  split; [by intros ->|].
  split.
  { intros Heq.
    pose proof (replaceWhiteSpace_empty_noWhiteSpace
                  (JsString.trim
                     (Js.String_ (if Js.truthy (get item "Price")
                                  then get item "Price"
                                  else Js.Str "No Price")))) as Hno.
    rewrite Heq in Hno. unfold JsString.noWhiteSpace in Hno.
    rewrite Forall_forall in Hno. specialize (Hno " "%char).
    assert (JsString.isWhiteSpace " " = false) as Hsp.
    { apply Hno. simpl. set_solver. }
    discriminate Hsp. }
  split; [by intros ->|].
  split; [intros H; rewrite H in Hd; by injection Hd as <-|].
  intros H; rewrite H in He; by injection He as <-.
Qed.

Lemma placeholder_defaults_witness :
  fields (cleanRow rowWithZeroPrice) = Js.Ok (fieldsOf "Milk" "NoPrice") ∧
  price (fieldsOf "Milk" "NoPrice") = "NoPrice".
Proof.
  assert (fields (cleanRow rowWithZeroPrice)
          = Js.Ok (fieldsOf "Milk" "NoPrice")) as H
    by (vm_compute; reflexivity).
  split; [exact H|].
  apply (proj1 (proj2 (placeholder_defaults _ _ H))).
  vm_compute; reflexivity.
Defined.

(** X16. In a row whose fields can be read, the [.trim()] in front of
    [.replace(/\s+/g, '')] has no effect on Price and Old Price: each is the
    cell text, or its default, with the white space deleted. *)
Theorem price_trim_is_redundant item f :
  fields item = Js.Ok f →
  price f
  = JsString.replaceWhiteSpace EmptyString (Js.String_ (priceValue item)) ∧
  oldPrice f
  = JsString.replaceWhiteSpace EmptyString
      (Js.String_ (Js.or (get item "Old Price") (Js.Str EmptyString))).
Proof.
  intros (n & d & e & c & _ & _ & _ & _ & ->)%fields_inv. cbn.
  split; apply chars_inj; rewrite strip_chars;
    unfold JsString.replaceWhiteSpace; by rewrite replaceRuns_empty_chars.
Qed.

Lemma price_trim_is_redundant_witness :
  fields (cleanRow eggsRow) = Js.Ok eggsFields ∧
  price eggsFields = JsString.replaceWhiteSpace EmptyString "$ 2 . 50".
Proof.
  assert (fields (cleanRow eggsRow) = Js.Ok eggsFields) as H
    by (vm_compute; reflexivity).
  split; [exact H|].
  exact (proj1 (price_trim_is_redundant _ _ H)).
Defined.

(** ** Probes, loop and grid *)

Section LoopFacts.

Lemma probesFrom_shape files exts slug :
  ∃ n : nat,
    probesFrom files exts slug = EvExists ∘ imagePath slug <$> take n exts ∧
    (∀ ext, ext ∈ take (pred n) exts →
            fileExists files (imagePath slug ext) = false) ∧
    match resolveFrom files exts slug with
    | Some p =>
        ∃ ext, exts !! pred n = Some ext ∧ (0 < n)%nat ∧
               p = imagePath slug ext ∧
               fileExists files (imagePath slug ext) = true
    | None => n = length exts
    end.
Proof.
  induction exts as [|ext rest (n & Hprobes & Hmiss & Hres)]; simpl.
  - exists 0%nat. split; [done|]. split; [|done]. by intros e ?%elem_of_nil.
  - destruct (fileExists files (imagePath slug ext)) eqn:Hex.
    + exists 1%nat. split; [done|]. split; [by intros e ?%elem_of_nil|].
      exists ext. split; [done|]. split; [lia|done].
    + exists (S n). split; [simpl; by rewrite Hprobes|]. split.
      * simpl. destruct n as [|n]; simpl; [by intros e ?%elem_of_nil|].
        intros e [->|He]%elem_of_cons; [done|]. by apply Hmiss.
      * destruct (resolveFrom files rest slug) as [p|]; [|by rewrite Hres].
        destruct Hres as (e & He & Hn & -> & Hp).
        exists e. split; [|split; [lia|done]].
        simpl. destruct n as [|n]; [lia|done].
Qed.

Lemma rowsResult_app files backgroundImage items1 items2 imageBuffers cards :
  Forall2 (λ item c, rowCard files backgroundImage item = Js.Ok c)
          items1 cards →
  rowsResult files backgroundImage (items1 ++ items2) imageBuffers
  = let r := rowsResult files backgroundImage items2 (imageBuffers ++ cards) in
    (r.1, (rowsResult files backgroundImage items1 imageBuffers).2 ++ r.2).
Proof.
  intros H; revert imageBuffers.
  induction H as [|item c items1 cards Hc _ IH]; intros imageBuffers.
  - cbn [app rowsResult snd]. rewrite app_nil_r. by destruct (rowsResult _ _ _ _).
  - apply rowCard_fields in Hc as (f & Hf & Hc).
    cbn [app rowsResult]. rewrite Hf, Hc. cbn zeta. rewrite IH. cbn zeta.
    cbn [fst snd]. rewrite <-!app_assoc. reflexivity.
Qed.

Lemma rowsResult_throws files backgroundImage items imageBuffers :
  Exists (λ item, ∃ e, fields item = Js.Throw e) items →
  ∃ e, (rowsResult files backgroundImage items imageBuffers).1 = Js.Throw e.
Proof.
  intros H. revert imageBuffers.
  induction H as [item items [e He]|item items _ IH]; intros imageBuffers;
    simpl.
  - rewrite He. by exists e.
  - destruct (fields item) as [f|e] eqn:Hf; simpl; [|by exists e].
    destruct (fieldsCard files backgroundImage f) as [c|e]; simpl;
      [apply IH|by exists e].
Qed.

End LoopFacts.

(** X1. [findProductImage] only reads the file system: it probes the
    candidate paths in the order of the extensions, stops at the first one
    that exists and never probes a later one; every probe before the last
    one missed, and without a hit all four candidates were probed. *)
Theorem findProductImage_probes slug s :
  ∃ found (n : nat),
    findProductImage slug s
    = (Js.Ok found,
       {| fs := fs s;
          trace := trace s ++ (EvExists ∘ imagePath slug <$> take n extensions);
          response := response s |}) ∧
    (n ≤ 4)%nat ∧
    (∀ ext, ext ∈ take (pred n) extensions →
            fs s !! imagePath slug ext = None) ∧
    match found with
    | Some p =>
        ∃ ext, extensions !! pred n = Some ext ∧ (0 < n)%nat ∧
               p = imagePath slug ext ∧ is_Some (fs s !! p)
    | None => n = 4%nat
    end.
Proof.
  destruct (probesFrom_shape (fs s) extensions slug)
    as (n & Hprobes & Hmiss & Hres).
  exists (resolveFrom (fs s) extensions slug), n.
  unfold findProductImage. rewrite findProductImageFrom_run, Hprobes.
  split; [done|]. split; [|split].
  - destruct (resolveFrom (fs s) extensions slug) as [p|].
    + destruct Hres as (e & He & Hn & _). apply lookup_lt_Some in He.
      simpl in He. lia.
    + by rewrite Hres.
  - intros ext Hext. apply Hmiss in Hext. unfold fileExists in Hext.
    case_bool_decide as Hsome; [done|]. by apply eq_None_not_Some.
  - destruct (resolveFrom (fs s) extensions slug) as [p|]; [|done].
    destruct Hres as (e & He & Hn & -> & Hp). exists e.
    repeat split; try done. unfold fileExists in Hp. by case_bool_decide.
Qed.

Lemma findProductImage_probes_witness :
  ∃ found (n : nat),
    findProductImage "fresh-milk" (start sampleFiles)
    = (Js.Ok found,
       {| fs := sampleFiles;
          trace := EvExists ∘ imagePath "fresh-milk" <$> take n extensions;
          response := None |}) ∧
    (n ≤ 4)%nat.
Proof.
  destruct (findProductImage_probes "fresh-milk" (start sampleFiles))
    as (found & n & Hrun & Hn & _).
  exists found, n. split; [exact Hrun|exact Hn].
Defined.

(** X8. The loop stops at the first row whose fields cannot be read, once
    the rows before it were rendered: it throws a TypeError in the state
    reached after those rows, so the failing row and the rows after it
    cause no probe, no log line and no image read. *)
Theorem loop_stops_at_first_failure backgroundImage items1 cards bad items2
    s e :
  Forall2 (λ item c, rowCard (fs s) backgroundImage item = Js.Ok c)
          items1 cards →
  fields bad = Js.Throw e →
  renderRows backgroundImage (items1 ++ bad :: items2) [] s
  = (Js.Throw Js.TypeError, (renderRows backgroundImage items1 [] s).2).
Proof.
  intros Hok Hbad. rewrite !renderRows_run.
  rewrite (rowsResult_app _ _ _ _ _ _ Hok). cbn zeta. cbn [rowsResult].
  rewrite Hbad. cbn [fst snd]. by rewrite app_nil_r, (fields_throw _ _ Hbad).
Qed.

(** X7. When a row of a readable, removable upload cannot be read into
    fields, the handler ends with an exception after removing the upload,
    the TypeError of that row or an earlier exception of [sharp]: nothing
    else in the file system has changed (no output file is written or
    overwritten) and no response is set. *)
Theorem failing_row_writes_nothing files f workbook :
  data <$> files !! uploadPath f = Some (Spreadsheet workbook) →
  removable <$> files !! uploadPath f = Some true →
  Exists (λ row, ∃ e, fields (cleanRow row) = Js.Throw e)
         (firstSheet workbook) →
  ∃ e s', upload {| file := Some f |} (start files) = (Js.Throw e, s') ∧
          (e = Js.TypeError ∨ e = Js.SharpError) ∧
          fs s' = delete (uploadPath f) files ∧
          response s' = None.
Proof.
  intros Hread Hrm Hbad.
  rewrite upload_run, (load_ok _ _ _ Hread Hrm). cbn zeta. cbn [fs].
  destruct (background _) as [backgroundImage|e] eqn:Hbg.
  2:{ exists e. eexists. split; [done|]. split; [|done].
      right. by apply background_exn in Hbg. }
  destruct (rowsResult_throws (delete (uploadPath f) files) backgroundImage
              (cleanedData (firstSheet workbook)) [])
    as [e He]; [unfold cleanedData; by apply Exists_fmap|].
  rewrite He. exists e. eexists. split; [done|]. split; [|done].
  by apply rowsResult_exn in He.
Qed.

(** X18. An upload whose first sheet has no rows gives no price sheet:
    [sharp] refuses a canvas of height 0, so the handler ends with the
    exception of [sharp] after removing the upload, writes no file and sets
    no response. *)
Theorem empty_sheet_throws files f workbook :
  data <$> files !! uploadPath f = Some (Spreadsheet workbook) →
  removable <$> files !! uploadPath f = Some true →
  firstSheet workbook = [] →
  totalHeight (length (firstSheet workbook)) = 0 ∧
  ∃ s', upload {| file := Some f |} (start files)
        = (Js.Throw Js.SharpError, s') ∧
        fs s' = delete (uploadPath f) files ∧
        response s' = None.
Proof.
  intros Hread Hrm Hrows. rewrite Hrows. split; [reflexivity|].
  rewrite upload_run, (load_ok _ _ _ Hread Hrm), Hrows. cbn zeta. cbn [fs].
  destruct (background _) as [backgroundImage|e] eqn:Hbg.
  2:{ apply background_exn in Hbg as ->. by eexists. }
  cbn. by eexists.
Qed.

(** X19. When [sharp] refuses a row whose fields were read, because the
    product image found cannot be decoded or because the composition is
    not rendered, the loop stops at that row with the exception of [sharp],
    after the probes, the log lines and the image read of that row: the
    rows after it cause nothing, and the file system is as it was. *)
Theorem refused_row_stops_loop backgroundImage items1 cards bad f items2 s :
  Forall2 (λ item c, rowCard (fs s) backgroundImage item = Js.Ok c)
          items1 cards →
  fields bad = Js.Ok f →
  (∃ p, resolve (fs s) (productImageSlug (text f)) = Some p ∧
        decode (fs s) p = Js.Throw Js.SharpError) ∨
  (∃ productImage,
     productImageOf (fs s) (productImageSlug (text f)) = Js.Ok productImage ∧
     renders cardCanvas (cardLayers backgroundImage productImage f) = false) →
  renderRows backgroundImage (items1 ++ bad :: items2) [] s
  = (Js.Throw Js.SharpError,
     logged (renderRows backgroundImage items1 [] s).2
            (rowEvents (fs s) f)) ∧
  fs (renderRows backgroundImage (items1 ++ bad :: items2) [] s).2 = fs s.
Proof.
  intros Hok Hf Hrefused.
  assert (fieldsCard (fs s) backgroundImage f = Js.Throw Js.SharpError)
    as Hcard.
  { unfold fieldsCard.
    destruct Hrefused as [(p & Hp & Hdec)|(productImage & -> & Hr)].
    - unfold productImageOf. by rewrite Hp, Hdec.
    - cbn. by rewrite Hr. }
  rewrite !renderRows_run.
  rewrite (rowsResult_app _ _ _ _ _ _ Hok). cbn zeta. cbn [rowsResult].
  rewrite Hf, Hcard. cbn [fst snd]. split; [|done].
  by rewrite logged_logged.
Qed.

(** X9. Two different indices get cells that do not overlap: one cell lies
    entirely to the left of, to the right of, above or below the other. *)
Theorem grid_cells_disjoint (i j : nat) buffer1 buffer2 :
  i ≠ j →
  let ci := gridCell i buffer1 in
  let cj := gridCell j buffer2 in
  Sharp.left ci + boxWidth ≤ Sharp.left cj ∨
  Sharp.left cj + boxWidth ≤ Sharp.left ci ∨
  Sharp.top ci + boxHeight ≤ Sharp.top cj ∨
  Sharp.top cj + boxHeight ≤ Sharp.top ci.
Proof.
  intros Hij. cbn zeta. rewrite !gridCell_eq. cbn [Sharp.left Sharp.top].
  unfold boxWidth, boxHeight.
  assert (Z.of_nat i ≠ Z.of_nat j) by lia.
  Z.div_mod_to_equations. lia.
Qed.

Lemma grid_cells_disjoint_witness :
  Sharp.left (gridCell 2 (Sharp.buffer "a")) + boxWidth
    ≤ Sharp.left (gridCell 3 (Sharp.buffer "b")) ∨
  Sharp.left (gridCell 3 (Sharp.buffer "b")) + boxWidth
    ≤ Sharp.left (gridCell 2 (Sharp.buffer "a")) ∨
  Sharp.top (gridCell 2 (Sharp.buffer "a")) + boxHeight
    ≤ Sharp.top (gridCell 3 (Sharp.buffer "b")) ∨
  Sharp.top (gridCell 3 (Sharp.buffer "b")) + boxHeight
    ≤ Sharp.top (gridCell 2 (Sharp.buffer "a")).
Proof.
  apply (grid_cells_disjoint 2 3 (Sharp.buffer "a") (Sharp.buffer "b")). lia.
Defined.

(** X10. The index of a card can be read back from its offsets, its cell
    lies on the canvas computed for any number of rows above its index, and
    the cell of the last card ends exactly at the bottom of the canvas: the
    grid has no empty last row. *)
Theorem grid_cell_index (n i : nat) buffer :
  (i < n)%nat →
  let c := gridCell i buffer in
  Z.of_nat i = Sharp.top c / boxHeight * columns + Sharp.left c / boxWidth ∧
  0 ≤ Sharp.left c ∧ Sharp.left c + boxWidth ≤ totalWidth ∧
  0 ≤ Sharp.top c ∧ Sharp.top c + boxHeight ≤ totalHeight n ∧
  (S i = n → Sharp.top c + boxHeight = totalHeight n).
Proof.
  intros Hi. cbn zeta. rewrite gridCell_eq, totalHeight_eq.
  cbn [Sharp.left Sharp.top]. unfold totalWidth, boxWidth, boxHeight, columns.
  rewrite !Z.div_mul by lia.
  split; [|split; [|split; [|split; [|split]]]];
    Z.div_mod_to_equations; lia.
Qed.

Lemma grid_cell_index_witness :
  Sharp.top (gridCell 6 (Sharp.buffer "a")) + boxHeight = totalHeight 7.
Proof.
  apply (grid_cell_index 7 6 (Sharp.buffer "a")); [lia|reflexivity].
Defined.

(** ** The run as a whole *)

(** X4. Starting without a response, the handler sets one only at its two
    exits: the 400 text when no file came, before anything else happens, or
    the JSON links once both output files are in place and the upload is
    gone.  A run that throws has set no response. *)
Theorem response_discipline req files :
  match response (upload req (start files)).2 with
  | None => ∃ e, (upload req (start files)).1 = Js.Throw e
  | Some resp =>
      (upload req (start files)).1 = Js.Ok () ∧
      match file req with
      | None =>
          resp = {| status := 400; body := Text "No file uploaded." |} ∧
          fs (upload req (start files)).2 = files ∧
          trace (upload req (start files)).2 = []
      | Some f =>
          resp = success ∧
          is_Some (fs (upload req (start files)).2 !! stitchedImagePath) ∧
          is_Some (fs (upload req (start files)).2 !! pdfPath) ∧
          fs (upload req (start files)).2 !! uploadPath f = None
      end
  end.
Proof.
  destruct req as [[f|]]; [|by cbn].
  destruct (load_cases (uploadPath f) (start files))
    as [(rows & Hload)|(e & events & Hload)].
  2:{ rewrite (upload_throws_with_load _ _ _ _ Hload). cbn. eauto. }
  destruct (upload_after_load _ _ _ _ Hload)
    as [(Hok & (buffers & Hfs & _) & ->)|((e & He) & _ & ->)];
    [|cbn; eauto].
  split; [done|]. cbn [file]. split; [done|]. rewrite Hfs. cbn [fs start].
  unfold exported.
  split; [rewrite lookup_insert_ne by done; rewrite lookup_insert_eq; eauto|].
  split; [rewrite lookup_insert_eq; eauto|].
  rewrite !lookup_insert_ne by done. apply lookup_delete_eq.
Qed.

(** X5. After a successful run the PDF has one page of the size of the
    PNG's canvas, on which the PNG that was written is drawn at (0,0) over
    the whole page; the canvas is 2400 wide and as high as its number of
    layers requires. *)
Theorem pdf_matches_png files f s' :
  upload {| file := Some f |} (start files) = (Js.Ok (), s') →
  ∃ canvas layers,
    data <$> fs s' !! stitchedImagePath
    = Some (Png (Sharp.composite canvas layers)) ∧
    data <$> fs s' !! pdfPath
    = Some (PdfBytes
              [Pdf.Build_Page (Sharp.width canvas, Sharp.height canvas)
                 [Pdf.Build_DrawImage (Png (Sharp.composite canvas layers))
                    0 0 (Sharp.width canvas) (Sharp.height canvas)]]) ∧
    Sharp.width canvas = 2400 ∧
    Sharp.height canvas = (Z.of_nat (length layers) + 2) / 3 * 200.
Proof.
  rewrite upload_run.
  destruct (load_cases (uploadPath f) (start files))
    as [(rows & ->)|(e & events & ->)]; [|done].
  cbn zeta. cbn [fs start].
  destruct (background _) as [backgroundImage|e]; [|done].
  destruct (rowsResult _ _ _ _).1 as [buffers|e] eqn:Hr; [|done].
  destruct (validCreate _); [destruct (renders _ _)|]; [|done|done].
  intros [= <-]. cbn [fs].
  apply rowsResult_inv in Hr as (cards & -> & Hcards).
  apply Forall2_length in Hcards. cbn [app].
  exists (gridCanvas (length (cleanedData rows))), (imap gridCell cards).
  unfold exported.
  rewrite lookup_insert_ne by done. rewrite !lookup_insert_eq.
  split; [done|]. split; [done|]. split; [done|].
  cbn [Sharp.height gridCanvas]. by rewrite totalHeight_eq, length_imap, Hcards.
Qed.


(** X14. Only the first sheet counts: two removable uploads whose workbooks
    have the same rows in their first sheet give the same run, whatever
    their other sheets hold. *)
Theorem later_sheets_ignored files f workbook1 workbook2 :
  firstSheet workbook1 = firstSheet workbook2 →
  upload {| file := Some f |}
    (start (<[uploadPath f :=
                {| data := Spreadsheet workbook1; removable := true |}]> files))
  = upload {| file := Some f |}
      (start (<[uploadPath f :=
                  {| data := Spreadsheet workbook2; removable := true |}]> files)).
Proof.
  intros Hrows. rewrite !upload_run, !load_run. cbn [fs start].
  rewrite !lookup_insert_eq. cbn [fmap option_fmap option_map data removable].
  cbn zeta. rewrite Hrows, !delete_insert_eq. reflexivity.
Qed.

(** X17. Rows are not deduplicated: when a run of the loop reaches its end,
    a row that occurs at two indices has a card at both, and the two cards
    are the same image. *)
Theorem duplicate_rows_identical_cards backgroundImage items s buffers
    (i j : nat) item :
  (renderRows backgroundImage items [] s).1 = Js.Ok buffers →
  items !! i = Some item →
  items !! j = Some item →
  is_Some (buffers !! i) ∧ buffers !! i = buffers !! j ∧
  length buffers = length items.
Proof.
  intros Hrun Hi Hj. rewrite renderRows_run in Hrun. cbn [fst] in Hrun.
  apply rowsResult_inv in Hrun as (cards & -> & Hcards). cbn [app].
  destruct (Forall2_lookup_l _ _ _ _ _ Hcards Hi) as (ci & Hci & Hri).
  destruct (Forall2_lookup_l _ _ _ _ _ Hcards Hj) as (cj & Hcj & Hrj).
  rewrite Hri in Hrj. injection Hrj as <-.
  split; [by rewrite Hci|]. split; [by rewrite Hci, Hcj|].
  symmetry. by eapply Forall2_length.
Qed.

End Library.

(** * The claims on sample inputs *)

Lemma grid_layout_witness :
  ∃ s' layers,
    upload sampleRenders {| file := Some sampleUpload |} (start sampleFiles)
    = (Js.Ok (), s') ∧
    data <$> fs s' !! stitchedImagePath
    = Some (Png (Sharp.composite
                   {| Sharp.width := 2400; Sharp.height := 400;
                      Sharp.channels := 4; Sharp.background := Sharp.white |}
                   layers)) ∧
    length layers = 4%nat ∧
    (Sharp.left <$> layers) = [0; 800; 1600; 0] ∧
    (Sharp.top <$> layers) = [0; 0; 0; 200] ∧
    (Sharp.input <$> layers) = sampleCards.
Proof.
  destruct (grid_layout sampleRenders sampleFiles sampleUpload sampleBook
              sampleBackground sampleCards)
    as (s' & layers & Hrun & Hpng & _ & Hlen & Hcells).
  - vm_compute; reflexivity.
  - vm_compute; reflexivity.
  - vm_compute; reflexivity.
  - repeat constructor; vm_compute; reflexivity.
  - vm_compute; lia.
  - vm_compute; reflexivity.
  - exists s', layers. split; [exact Hrun|]. split; [exact Hpng|].
    split; [exact Hlen|].
    destruct layers as [|l0 [|l1 [|l2 [|l3 [|]]]]]; try discriminate Hlen.
    destruct (Hcells 0%nat _ eq_refl) as [[= ->] _].
    destruct (Hcells 1%nat _ eq_refl) as [[= ->] _].
    destruct (Hcells 2%nat _ eq_refl) as [[= ->] _].
    destruct (Hcells 3%nat _ eq_refl) as [[= ->] _].
    repeat split.
Defined.

(** The padded name of the sample row gives the slug [fresh-milk], for which
    the [.png] candidate is missing and the [.jpg] one is found. *)
Lemma slug_and_lookup_witness :
  fields sampleItem = Js.Ok sampleFields ∧
  productName sampleItem = Js.Str "  Fresh   Milk " ∧
  JsString.replaceWhiteSpace "-"
    (JsString.toLowerCase (JsString.trim "  Fresh   Milk ")) = "fresh-milk" ∧
  ∃ s',
    findProductImage "fresh-milk" (start sampleFiles)
    = (Js.Ok (Some [__dirname; "images"; "fresh-milk.jpg"]), s') ∧
    EvLog (LookingForImage "fresh-milk")
      ∈ trace (renderRow sampleRenders sampleBackground sampleItem
                 (start sampleFiles)).2.
Proof.
  assert (fields sampleItem = Js.Ok sampleFields) as H
    by (vm_compute; reflexivity).
  split; [exact H|].
  destruct (slug_and_lookup sampleRenders sampleBackground sampleItem
              sampleFields (start sampleFiles) H)
    as (name & slug & found & s' & Hname & Hslug & _ & _ & Hex & Hfind & _
        & _ & Hlog & _).
  assert (name = "  Fresh   Milk ") as ->
    by (vm_compute in Hname; by injection Hname).
  split; [exact Hname|]. rewrite (Hex eq_refl) in Hslug, Hfind, Hlog.
  split; [by rewrite <-Hslug|]. exists s'. split; [|exact Hlog].
  rewrite Hfind. f_equal. f_equal.
  vm_compute in Hfind. by injection Hfind as <- _.
Defined.

Lemma card_layers_witness :
  ∃ s',
    renderRow sampleRenders sampleBackground sampleItem (start sampleFiles)
    = (Js.Ok
         (Sharp.composite cardCanvas
            [{| Sharp.input := Sharp.pixels "paper";
                Sharp.left := 0; Sharp.top := 0 |};
             {| Sharp.input :=
                  Sharp.resize (Sharp.pixels "milk, as jpeg") 150 150
                    Sharp.inside;
                Sharp.left := 400; Sharp.top := 20 |};
             {| Sharp.input := Sharp.buffer (svg sampleFields);
                Sharp.left := 0; Sharp.top := 0 |}]),
       s').
Proof.
  apply (card_layers sampleRenders sampleBackground sampleItem sampleFields
           (start sampleFiles) (Some (Sharp.pixels "milk, as jpeg")));
    vm_compute; reflexivity.
Defined.

Lemma load_failure_witness :
  upload sampleRenders {| file := Some sampleUpload |} (start unreadableFiles)
  = (Js.Throw Js.XlsxError,
     {| fs := unreadableFiles; trace := [EvReadFile (uploadPath sampleUpload)];
        response := None |}) ∧
  EvExists backgroundImagePath
    ∈ trace (upload sampleRenders {| file := Some sampleUpload |}
               (start noSheetsFiles)).2.
Proof.
  split.
  - apply (proj1 (load_failure sampleRenders unreadableFiles sampleUpload)).
    intros workbook; vm_compute; discriminate.
  - apply (proj2 (load_failure sampleRenders noSheetsFiles sampleUpload)
             noSheetsBook);
      vm_compute; reflexivity.
Defined.

(** C5 as stated fails on a workbook without sheets: the loader returns zero
    rows, and the run does not stop before the asset stage. *)
Lemma no_sheets_counterexample :
  Xlsx.SheetNames noSheetsBook = [] ∧
  data <$> noSheetsFiles !! uploadPath sampleUpload
  = Some (Spreadsheet noSheetsBook) ∧
  (load (uploadPath sampleUpload) (start noSheetsFiles)).1 = Js.Ok [] ∧
  EvExists backgroundImagePath
    ∈ trace (upload sampleRenders {| file := Some sampleUpload |}
               (start noSheetsFiles)).2 ∧
  ¬ (∃ e s',
       upload sampleRenders {| file := Some sampleUpload |}
         (start noSheetsFiles)
       = (Js.Throw e, s') ∧
       EvExists backgroundImagePath ∉ trace s').
Proof.
  assert (EvExists backgroundImagePath
            ∈ trace (upload sampleRenders {| file := Some sampleUpload |}
                       (start noSheetsFiles)).2) as Hin.
  { apply list_elem_of_In. vm_compute. tauto. }
  repeat split; try (vm_compute; reflexivity); [exact Hin|].
  intros (e & s' & Hrun & Hnot). rewrite Hrun in Hin. by apply Hnot.
Qed.

Lemma temp_file_removal_witness :
  fs (upload sampleRenders {| file := Some sampleUpload |}
        (start sampleFiles)).2
    !! uploadPath sampleUpload = None ∧
  upload sampleRenders {| file := Some sampleUpload |} (start lockedFiles)
  = (Js.Throw Js.FsError,
     {| fs := lockedFiles;
        trace := [EvReadFile (uploadPath sampleUpload);
                  EvLog (ParsedData (firstSheet sampleBook));
                  EvUnlink (uploadPath sampleUpload)];
        response := None |}).
Proof.
  split.
  - apply (proj1 (temp_file_removal sampleRenders sampleFiles sampleUpload)
             sampleBook);
      vm_compute; reflexivity.
  - apply (proj2 (proj2 (temp_file_removal sampleRenders lockedFiles
                           sampleUpload)) sampleBook);
      [vm_compute; reflexivity|vm_compute; discriminate].
Defined.

(** C7 as stated fails twice: a removal that fails ends the run with the
    exception, unlogged and without a response; and an upload that cannot
    be read is not removed. *)
Lemma removal_counterexample :
  upload sampleRenders {| file := Some sampleUpload |} (start lockedFiles)
  = (Js.Throw Js.FsError,
     {| fs := lockedFiles; trace := uploadEvents sampleUpload sampleRows;
        response := None |}) ∧
  (upload sampleRenders {| file := Some sampleUpload |}
     (start lockedFiles)).1 ≠ Js.Ok () ∧
  upload sampleRenders {| file := Some sampleUpload |} (start unreadableFiles)
  = (Js.Throw Js.XlsxError,
     {| fs := unreadableFiles; trace := [EvReadFile (uploadPath sampleUpload)];
        response := None |}) ∧
  is_Some (fs (upload sampleRenders {| file := Some sampleUpload |}
                 (start unreadableFiles)).2
             !! uploadPath sampleUpload).
Proof.
  assert (upload sampleRenders {| file := Some sampleUpload |}
            (start lockedFiles)
          = (Js.Throw Js.FsError,
             {| fs := lockedFiles; trace := uploadEvents sampleUpload sampleRows;
                response := None |})) as Hlocked by (vm_compute; reflexivity).
  assert (upload sampleRenders {| file := Some sampleUpload |}
            (start unreadableFiles)
          = (Js.Throw Js.XlsxError,
             {| fs := unreadableFiles;
                trace := [EvReadFile (uploadPath sampleUpload)];
                response := None |})) as Hunreadable
    by (vm_compute; reflexivity).
  split; [exact Hlocked|]. split; [by rewrite Hlocked|].
  split; [exact Hunreadable|]. rewrite Hunreadable. cbn [snd fs].
  unfold unreadableFiles. rewrite lookup_singleton_eq. eauto.
Qed.

Lemma card_independence_witness :
  (renderRows sampleRenders sampleBackground (cleanedData sampleRows) []
     (start sampleFiles)).1
  = Js.Ok sampleCards ∧
  (renderRows sampleRenders sampleBackground (cleanedData otherRows) []
     (start ∅)).1
  = Js.Ok otherCards ∧
  otherCards !! 1%nat = sampleCards !! 1%nat.
Proof.
  assert ((renderRows sampleRenders sampleBackground (cleanedData sampleRows)
             [] (start sampleFiles)).1 = Js.Ok sampleCards) as H1
    by (vm_compute; reflexivity).
  assert ((renderRows sampleRenders sampleBackground (cleanedData otherRows)
             [] (start ∅)).1 = Js.Ok otherCards) as H2
    by (vm_compute; reflexivity).
  split; [exact H1|]. split; [exact H2|].
  destruct (card_independence sampleRenders sampleBackground
              (cleanedData sampleRows) (cleanedData otherRows)
              (start sampleFiles) (start ∅) sampleCards otherCards 1%nat
              (cleanRow eggsRow) H1 H2)
    as (f & productImage & _ & _ & _ & Heq & _).
  - reflexivity.
  - reflexivity.
  - intros f Hf. vm_compute in Hf. injection Hf as <-. vm_compute; reflexivity.
  - exact Heq.
Defined.

(** * The further properties on sample inputs *)

Lemma loop_stops_at_first_failure_witness :
  renderRows sampleRenders None (cleanedData badRows) [] (start ∅)
  = (Js.Throw Js.TypeError,
     (renderRows sampleRenders None (cleanedData [eggsRow]) [] (start ∅)).2).
Proof.
  apply (loop_stops_at_first_failure sampleRenders None [cleanRow eggsRow]
           [card None None eggsFields]
           (cleanRow numericNameRow) [cleanRow eggsRow] (start ∅)
           Js.TypeError).
  - repeat constructor.
  - vm_compute; reflexivity.
Defined.

Lemma failing_row_writes_nothing_witness :
  ∃ s', upload sampleRenders {| file := Some sampleUpload |} (start badFiles)
        = (Js.Throw Js.TypeError, s') ∧
        fs s' !! stitchedImagePath
        = Some {| data := Png (Sharp.buffer "old"); removable := true |}.
Proof.
  destruct (failing_row_writes_nothing sampleRenders badFiles sampleUpload
              badBook)
    as (e & s' & Hrun & _ & Hfs & _).
  - vm_compute; reflexivity.
  - vm_compute; reflexivity.
  - apply Exists_cons_tl, Exists_cons_hd. exists Js.TypeError.
    vm_compute; reflexivity.
  - exists s'. split.
    + rewrite Hrun. f_equal. f_equal.
      vm_compute in Hrun. by injection Hrun as <- _.
    + rewrite Hfs. rewrite lookup_delete_ne by discriminate. reflexivity.
Defined.

Lemma empty_sheet_throws_witness :
  ∃ s', upload sampleRenders {| file := Some sampleUpload |}
          (start noSheetsFiles)
        = (Js.Throw Js.SharpError, s') ∧
        fs s' = ∅ ∧ response s' = None.
Proof.
  destruct (empty_sheet_throws sampleRenders noSheetsFiles sampleUpload
              noSheetsBook)
    as (_ & s' & Hrun & Hfs & Hresp).
  - vm_compute; reflexivity.
  - vm_compute; reflexivity.
  - vm_compute; reflexivity.
  - exists s'. split; [exact Hrun|]. split; [|exact Hresp].
    rewrite Hfs. unfold noSheetsFiles. apply delete_singleton_eq.
Defined.

(** A row with an ampersand in its name is refused by the sample library,
    and so is a row whose image file is not an image; the row after it is
    not looked at. *)
Lemma refused_row_stops_loop_witness :
  renderRows sampleRenders None (cleanedData [eggsRow; fishRow; eggsRow]) []
    (start ∅)
  = (Js.Throw Js.SharpError,
     logged (renderRows sampleRenders None (cleanedData [eggsRow]) []
               (start ∅)).2
            (rowEvents ∅ fishFields)) ∧
  (renderRows sampleRenders None (cleanedData [eggsRow; fishRow]) []
     (start brokenImageFiles)).1
  = Js.Throw Js.SharpError.
Proof.
  split.
  - apply (refused_row_stops_loop sampleRenders None [cleanRow eggsRow]
             [card None None eggsFields] (cleanRow fishRow) fishFields
             [cleanRow eggsRow] (start ∅)).
    + repeat constructor.
    + vm_compute; reflexivity.
    + right. exists None. split; vm_compute; reflexivity.
  - destruct (refused_row_stops_loop sampleRenders None [] []
                (cleanRow eggsRow) eggsFields [cleanRow fishRow]
                (start brokenImageFiles)) as [Hrun _].
    + constructor.
    + vm_compute; reflexivity.
    + left. exists (imagePath "eggs" ".png"). split; vm_compute; reflexivity.
    + cbn [app] in Hrun. unfold cleanedData. cbn [fmap list_fmap].
      by rewrite Hrun.
Defined.

Lemma pdf_matches_png_witness :
  ∃ s' canvas layers,
    upload sampleRenders {| file := Some sampleUpload |} (start sampleFiles)
    = (Js.Ok (), s') ∧
    data <$> fs s' !! pdfPath
    = Some (PdfBytes
              [Pdf.Build_Page (Sharp.width canvas, Sharp.height canvas)
                 [Pdf.Build_DrawImage (Png (Sharp.composite canvas layers))
                    0 0 (Sharp.width canvas) (Sharp.height canvas)]]) ∧
    Sharp.width canvas = 2400.
Proof.
  exists (upload sampleRenders {| file := Some sampleUpload |}
            (start sampleFiles)).2.
  assert (upload sampleRenders {| file := Some sampleUpload |}
            (start sampleFiles)
          = (Js.Ok (),
             (upload sampleRenders {| file := Some sampleUpload |}
                (start sampleFiles)).2))
    as Hrun by (vm_compute; reflexivity).
  destruct (pdf_matches_png sampleRenders _ _ _ Hrun)
    as (canvas & layers & _ & Hpdf & Hw & _).
  exists canvas, layers. split; [exact Hrun|]. split; [exact Hpdf|exact Hw].
Defined.


Lemma later_sheets_ignored_witness :
  upload sampleRenders {| file := Some sampleUpload |}
    (start (<[uploadPath sampleUpload :=
                {| data := Spreadsheet sampleBook; removable := true |}]> ∅))
  = upload sampleRenders {| file := Some sampleUpload |}
      (start (<[uploadPath sampleUpload :=
                  {| data := Spreadsheet sampleBookWithOtherSheets;
                     removable := true |}]> ∅)).
Proof.
  apply (later_sheets_ignored sampleRenders ∅ sampleUpload sampleBook
           sampleBookWithOtherSheets).
  vm_compute; reflexivity.
Defined.

Lemma duplicate_rows_identical_cards_witness :
  [card None None eggsFields; card None None (fieldsOf "Tea" "NoPrice");
   card None None eggsFields] !! 0%nat
  = [card None None eggsFields; card None None (fieldsOf "Tea" "NoPrice");
     card None None eggsFields] !! 2%nat.
Proof.
  apply (duplicate_rows_identical_cards sampleRenders None
           (cleanedData [eggsRow; [("Product", Js.Str "Tea")]; eggsRow])
           (start ∅) _ 0 2 (cleanRow eggsRow)).
  - vm_compute; reflexivity.
  - reflexivity.
  - reflexivity.
Defined.
